(** * Transactions dashboard: normalisation and aggregation pipeline

    A shallow embedding of [src/app.py].  The program is a chain of pandas
    operations; each pandas primitive the program calls is written out here
    as a function on lists, and every function of [app.py] that carries
    logic is a definition of the same name built from them.

    - The normaliser [load_and_clean_data] works on untyped tables
      ([Frame]: labelled columns of cells) and may raise.
    - The aggregator ([get_kpi_metrics], the [make_..._chart] functions and
      [main]) works on the canonical table ([DataFrame]: typed rows).

    Conventions.
    - Money amounts are whole won, modelled as [Z].  pandas holds them as
      int64, and as float64 once a column has a missing value; a statement
      that compares totals assumes that the sums are exact ([sums_exact]).
    - A missing value (pandas NaN / NaT / None) is [NaN] in an untyped cell
      and [None] in a typed field.
    - A raised Python exception is [Raise e].
    - What pandas leaves open (the cell conversions, the order of equal keys
      in a sort) is a parameter: [Conversions], [Sorter].  [numpy_sorter]
      is the sort as pandas and numpy run it on a column of timestamps.
    - A frame the program assigns to is an object in a [Heap]; the functions
      that take a frame are also given as procedures on it.

    The file has three parts: the model, the vocabulary of the statements
    with the sample data, and the properties. *)

From Stdlib Require Import ZArith List String Ascii Bool Lia.
From Stdlib Require Import Permutation Sorted.
Import ListNotations.
Open Scope Z_scope.

(** ** Timestamps *)

Record Timestamp := mkTs {
  year : Z; month : Z; day : Z; hour : Z; minute : Z; second : Z
}.

(** Chronological rank of a timestamp.  pandas keeps a datetime64 value as a
    count of nanoseconds since the epoch and sorts on that integer; on valid
    calendar timestamps this mixed-radix rank is ordered the same way. *)
Definition ts_key (t : Timestamp) : Z :=
  ((((year t * 12 + (month t - 1)) * 31 + (day t - 1)) * 24 + hour t) * 60
   + minute t) * 60 + second t.

Definition digit (n : Z) : ascii := ascii_of_nat (48 + Z.to_nat (n mod 10)).

Definition pad2 (n : Z) : string :=
  String (digit (n / 10)) (String (digit n) EmptyString).

Definition pad4 (n : Z) : string :=
  String (digit (n / 1000)) (String (digit (n / 100)) (pad2 n)).

(** [ts.dt.to_period('M').astype(str)]: the month key ["YYYY-MM"]. *)
Definition month_str (t : Timestamp) : string :=
  (pad4 (year t) ++ "-" ++ pad2 (month t))%string.

(** ** Exceptions *)

Inductive exn :=
| KeyError (labels : list string)   (* label(s) not found in the columns *)
| ValueError.                       (* a cell that cannot be converted *)

Inductive result (A : Type) :=
| Ok (a : A)
| Raise (e : exn).
Arguments Ok {A} a.
Arguments Raise {A} e.

Definition bind {A B} (r : result A) (k : A -> result B) : result B :=
  match r with
  | Ok a => k a
  | Raise e => Raise e
  end.

Notation "x <- r ;; k" := (bind r (fun x => k))
  (at level 61, r at next level, right associativity).

Definition is_ok {A} (r : result A) : bool :=
  match r with Ok _ => true | Raise _ => false end.

(** ** Untyped tables, as [pd.read_excel] produces them *)

Inductive cell :=
| NaN                      (* empty cell; also NaT *)
| Num (z : Z)
| Str (s : string)
| Stamp (t : Timestamp)    (* datetime64 *)
| TimeV (h m s : Z)        (* datetime.time *)
| DateV (y m d : Z).       (* datetime.date *)

(** A frame is column-major: the header and the cells below it. *)
Definition Frame := list (string * list cell).

Module Pd.

Fixpoint lookup {V} (k : string) (m : list (string * V)) : option V :=
  match m with
  | [] => None
  | (k', v) :: m' => if String.eqb k k' then Some v else lookup k m'
  end.

Definition mem (k : string) (l : list string) : bool :=
  existsb (String.eqb k) l.

Definition labels (df : Frame) : list string := map fst df.

(** [df.rename(columns=m)]: labels absent from [m] are kept, keys of [m]
    absent from the frame are ignored (pandas' default errors='ignore'). *)
Definition rename (m : list (string * string)) (df : Frame) : Frame :=
  map (fun c => (match lookup (fst c) m with
                 | Some n => n
                 | None => fst c
                 end, snd c)) df.

(** [df.drop(columns=ls)]: pandas' default errors='raise' reports every
    label that is not a column. *)
Definition drop (ls : list string) (df : Frame) : result Frame :=
  match filter (fun l => negb (mem l (labels df))) ls with
  | [] => Ok (filter (fun c => negb (mem (fst c) ls)) df)
  | missing => Raise (KeyError missing)
  end.

(** [df[l]] *)
Definition getitem (l : string) (df : Frame) : result (list cell) :=
  match lookup l df with
  | Some v => Ok v
  | None => Raise (KeyError [l])
  end.

(** [df[l] = v]: overwrite in place, or append a new last column. *)
Definition setitem (l : string) (v : list cell) (df : Frame) : Frame :=
  if mem l (labels df)
  then map (fun c => if String.eqb l (fst c) then (fst c, v) else c) df
  else df ++ [(l, v)].

(** [s.fillna(x)] *)
Definition fillna (x : cell) (s : list cell) : list cell :=
  map (fun c => match c with NaN => x | _ => c end) s.

(** [s.replace(m)]: a cell equal to a key of [m] becomes its value; every
    other cell, a missing one included, is left as it is. *)
Definition replace1 (m : list (string * string)) (c : cell) : cell :=
  match c with
  | Str s => match lookup s m with
             | Some s' => Str s'
             | None => c
             end
  | _ => c
  end.

Definition replace (m : list (string * string)) (s : list cell) : list cell :=
  map (replace1 m) s.

(** Element-wise conversion of a column; the first cell that cannot be
    converted raises for the whole column. *)
Fixpoint convert {B} (f : cell -> option B) (s : list cell) : result (list B) :=
  match s with
  | [] => Ok []
  | c :: s' =>
      match f c with
      | None => Raise ValueError
      | Some b => bs <- convert f s' ;; Ok (b :: bs)
      end
  end.

End Pd.

(** The two cell-level conversions of pandas that [load_and_clean_data]
    relies on.  The results below hold for every such pair.
    - [astype_int c]: the integer [astype(int)] gives for [c], [None] when
      it raises;
    - [to_datetime c]: what [pd.to_datetime(_, format='%Y.%m.%d %H:%M:%S')]
      gives for [c]: [None] when it raises, [Some None] for NaT. *)
Record Conversions := {
  astype_int : cell -> option Z;
  to_datetime : cell -> option (option Timestamp)
}.

(** ** The normaliser: [load_and_clean_data] *)

Definition COLUMN_NAMES : list (string * string) :=
  [ ("거래 일시", "Date"); ("적요", "Remarks"); ("거래 유형", "Transaction_Type");
    ("거래 기관", "Bank_Name"); ("계좌번호", "Account_Number");
    ("거래 금액", "Transaction_Amount"); ("거래 후 잔액", "Balance");
    ("메모", "Memo") ]%string.

Definition TYPE_NAMES : list (string * string) :=
  [ ("체크카드결제", "Check Card"); ("입금", "Deposit"); ("출금", "Withdrawal");
    ("프로모션입금", "Cashback"); ("오픈뱅킹", "Open Banking");
    ("이자입금", "Interest Deposit"); ("ATM출금", "ATM Withdrawal");
    ("KB국민은행", "KB Bank"); ("BC카드", "ATM Deposit") ]%string.

Definition DROPPED : list string := ["Unnamed: 0"; "Memo"]%string.

Definition dt_time (d : option Timestamp) : cell :=
  match d with
  | Some t => TimeV (hour t) (minute t) (second t)
  | None => NaN
  end.

Definition dt_date (d : option Timestamp) : cell :=
  match d with
  | Some t => DateV (year t) (month t) (day t)
  | None => NaN
  end.

Definition dt_month (d : option Timestamp) : cell :=
  match d with
  | Some t => Str (month_str t)
  | None => Str "NaT"
  end.

Definition dt_cell (d : option Timestamp) : cell :=
  match d with
  | Some t => Stamp t
  | None => NaN
  end.

Section Normaliser.

Variable L : Conversions.

(** The argument is the uploaded workbook, already read by
    [pd.read_excel(uploaded_file, sheet_name=0, skiprows=8)]. *)
Definition load_and_clean_data (uploaded_file : option Frame)
  : result (option Frame) :=
  match uploaded_file with
  | None => Ok None
  | Some df =>
      let df := Pd.rename COLUMN_NAMES df in
      df <- Pd.drop DROPPED df ;;
      acc <- Pd.getitem "Account_Number" df ;;
      acc <- Pd.convert (astype_int L) (Pd.fillna (Num 0) acc) ;;
      let df := Pd.setitem "Account_Number" (map Num acc) df in
      ty <- Pd.getitem "Transaction_Type" df ;;
      let df := Pd.setitem "Transaction_Type" (Pd.replace TYPE_NAMES ty) df in
      dates <- Pd.getitem "Date" df ;;
      dates <- Pd.convert (to_datetime L) dates ;;
      let df := Pd.setitem "Date" (map dt_cell dates) df in
      let df := Pd.setitem "Time" (map dt_time dates) df in
      let df := Pd.setitem "DateOnly" (map dt_date dates) df in
      let df := Pd.setitem "Month" (map dt_month dates) df in
      Ok (Some df)
  end.

End Normaliser.


(** ** One concrete pair of conversions

    Used to run the normaliser on sample workbooks: timestamps in the
    zero-padded layout [YYYY.MM.DD HH:MM:SS] of the export, account numbers
    as numeric cells or plain decimal strings. *)

Definition digit_val (c : ascii) : option Z :=
  let n := Z.of_nat (nat_of_ascii c) in
  if (48 <=? n) && (n <=? 57) then Some (n - 48) else None.

Fixpoint decimal (acc : Z) (s : list ascii) : option Z :=
  match s with
  | [] => Some acc
  | c :: s' =>
      match digit_val c with
      | Some d => decimal (10 * acc + d) s'
      | None => None
      end
  end.

Definition is_leap (y : Z) : bool :=
  ((y mod 4 =? 0) && negb (y mod 100 =? 0)) || (y mod 400 =? 0).

Definition days_in_month (y m : Z) : Z :=
  if m =? 2 then (if is_leap y then 29 else 28)
  else if (m =? 4) || (m =? 6) || (m =? 9) || (m =? 11) then 30
  else 31.

Definition valid_timestamp (t : Timestamp) : bool :=
  (1 <=? month t) && (month t <=? 12) &&
  (1 <=? day t) && (day t <=? days_in_month (year t) (month t)) &&
  (hour t <=? 23) && (minute t <=? 59) && (second t <=? 59).

Definition field (s : list ascii) (from len : nat) : option Z :=
  match firstn len (skipn from s) with
  | [] => None
  | ds => if Nat.eqb (List.length ds) len then decimal 0 ds else None
  end.

Definition sep (s : list ascii) (at_ : nat) (c : ascii) : bool :=
  match nth_error s at_ with
  | Some c' => Ascii.eqb c c'
  | None => false
  end.

Definition parse_timestamp (str : string) : option Timestamp :=
  let s := list_ascii_of_string str in
  if Nat.eqb (List.length s) 19
     && sep s 4 "." && sep s 7 "." && sep s 10 " "
     && sep s 13 ":" && sep s 16 ":"
  then
    match field s 0 4, field s 5 2, field s 8 2,
          field s 11 2, field s 14 2, field s 17 2 with
    | Some y, Some mo, Some d, Some h, Some mi, Some se =>
        let t := mkTs y mo d h mi se in
        if valid_timestamp t then Some t else None
    | _, _, _, _, _, _ => None
    end
  else None.

Definition plain : Conversions := {|
  astype_int c :=
    match c with
    | Num z => Some z
    | Str s => match s with
               | EmptyString => None
               | _ => decimal 0 (list_ascii_of_string s)
               end
    | _ => None
    end;
  to_datetime c :=
    match c with
    | NaN => Some None
    | Stamp t => Some (Some t)
    | Str s => option_map Some (parse_timestamp s)
    | _ => None
    end
|}.

(** ** The canonical table

    One record per row of the table [load_and_clean_data] returns.  The
    columns Time, DateOnly and Month are functions of [Date] and no aggregate
    reads them; they are left out.  A field that pandas may hold as a
    missing value is an [option]. *)

Record Transaction := mkTx {
  Date : Timestamp;
  Remarks : option string;
  Transaction_Type : option string;
  Bank_Name : option string;
  Account_Number : Z;
  Transaction_Amount : Z;
  Balance : Z
}.

(** A data frame of transactions.  [Hour] is the column of that name, which
    a frame only has once [make_heatmap] has assigned it. *)
Record DataFrame := mkDF {
  rows : list Transaction;
  Hour : option (list Z)
}.

Definition frame (l : list Transaction) : DataFrame := mkDF l None.

(** [df[mask]] with the mask computed row by row: a new frame (a copy)
    holding the rows where [p] holds, every column cut alike. *)
Definition select (p : Transaction -> bool) (df : DataFrame) : DataFrame :=
  {| rows := filter p (rows df);
     Hour := option_map
               (fun h => map snd (filter (fun x => p (fst x)) (combine (rows df) h)))
               (Hour df) |}.

(** [df.empty] *)
Definition empty (df : DataFrame) : bool :=
  match rows df with [] => true | _ :: _ => false end.

Definition isin (x : Z) (l : list Z) : bool := existsb (Z.eqb x) l.

(** ** Series and grouping *)

(** A series indexed by strings, in index order. *)
Definition Series := list (string * Z).

Definition zsum (l : list Z) : Z := fold_right Z.add 0 l.

Fixpoint insert_key (k : string) (l : list string) : list string :=
  match l with
  | [] => [k]
  | x :: l' => if String.leb k x then k :: l else x :: insert_key k l'
  end.

Definition sort_keys (l : list string) : list string :=
  fold_right insert_key [] l.

Definition unique_keys (l : list string) : list string :=
  sort_keys (nodup string_dec l).

Definition has_key {A} (key : A -> option string) (k : string) (r : A) : bool :=
  match key r with
  | Some k' => String.eqb k k'
  | None => false
  end.

Definition keys_of {A} (key : A -> option string) (l : list A) : list string :=
  flat_map (fun r => match key r with Some k => [k] | None => [] end) l.

(** [l.groupby(key)[val].sum()]: one entry per distinct key, in ascending
    key order (sort=True); rows whose key is missing belong to no group
    (dropna=True). *)
Definition groupby_sum {A} (key : A -> option string) (val : A -> Z)
  (l : list A) : Series :=
  map (fun k => (k, zsum (map val (filter (has_key key k) l))))
      (unique_keys (keys_of key l)).

(** [s.abs()] *)
Definition series_abs (s : Series) : Series :=
  map (fun kv => (fst kv, Z.abs (snd kv))) s.

(** The outer join of two indexes: every label of either, ascending. *)
Definition union_index (a b : Series) : list string :=
  unique_keys (map fst a ++ map fst b).

(** [a - b] on two series: pandas aligns them on the union of the two
    indexes, and a label that one side lacks gets NaN. *)
Definition series_sub (a b : Series) : list (string * option Z) :=
  map (fun k => (k, match Pd.lookup k a, Pd.lookup k b with
                    | Some x, Some y => Some (x - y)
                    | _, _ => None
                    end))
      (union_index a b).

Definition or0 (o : option Z) : Z :=
  match o with Some z => z | None => 0 end.

(** [A.merge(B, on=key, how='outer').fillna(0)] for two one-column frames
    built from the series [a] and [b]. *)
Definition merge_outer_fillna (a b : Series) : list (string * Z * Z) :=
  map (fun k => (k, or0 (Pd.lookup k a), or0 (Pd.lookup k b)))
      (union_index a b).

(** [s.sum()] on a column with missing values (skipna=True). *)
Definition sum_skipna (l : list (option Z)) : Z := zsum (map or0 l).

(** ** Sorting

    [sort_values(by, ascending=False)] with pandas' default
    kind='quicksort'.  What the call promises is that the result holds the
    same rows in descending order of the key; in which order rows with equal
    keys come out is up to the algorithm (quicksort is documented as not
    stable), so the aggregates are defined for any sort with that
    contract. *)
Record Sorter := {
  sort_desc : forall A : Type, (A -> Z) -> list A -> list A;
  sort_desc_perm : forall A (key : A -> Z) l,
      Permutation l (sort_desc A key l);
  sort_desc_sorted : forall A (key : A -> Z) l,
      StronglySorted (fun a b => key b <= key a) (sort_desc A key l)
}.
Arguments sort_desc s {A} key l.

(** ** The aggregator *)

Definition amount_pos (r : Transaction) : bool := 0 <? Transaction_Amount r.
Definition amount_neg (r : Transaction) : bool := Transaction_Amount r <? 0.

Definition type_is (s : string) (r : Transaction) : bool :=
  match Transaction_Type r with
  | Some s' => String.eqb s' s
  | None => false
  end.

(** [df['Transaction_Amount'].sum()] *)
Definition amount_sum (df : DataFrame) : Z :=
  zsum (map Transaction_Amount (rows df)).

(** The grouping key [df['Date'].dt.to_period('M').astype(str)]. *)
Definition month_key (r : Transaction) : option string :=
  Some (month_str (Date r)).

Definition date_key (r : Transaction) : Z := ts_key (Date r).

Record KPI := mkKPI {
  deposit : Z; withdrawal : Z; balance : Z;
  count : Z; cashback : Z; interest : Z
}.

Definition monthly_income (df : DataFrame) : Series :=
  groupby_sum month_key Transaction_Amount (rows (select amount_pos df)).

Definition monthly_expense (df : DataFrame) : Series :=
  series_abs
    (groupby_sum month_key Transaction_Amount (rows (select amount_neg df))).

(** The frame [trend_df] of [make_bar_trend]: Month, Income, Expense. *)
Definition trend_df (df : DataFrame) : list (string * Z * Z) :=
  merge_outer_fillna (monthly_income df) (monthly_expense df).

(** [trend_df.melt('Month', var_name='Category', value_name='Amount')] *)
Definition melt (t : list (string * Z * Z)) : list (string * string * Z) :=
  (map (fun r => (fst (fst r), "Income"%string, snd (fst r))) t
   ++ map (fun r => (fst (fst r), "Expense"%string, snd r)) t).

(** [df['Hour'].value_counts()]: the distinct values in order of first
    appearance with their counts, then sorted by count, largest first. *)
Definition first_seen (l : list Z) : list Z :=
  rev (nodup Z.eq_dec (rev l)).

Section Aggregator.

Variable S : Sorter.

Definition value_counts (l : list Z) : list (Z * Z) :=
  sort_desc S snd
    (map (fun h => (h, Z.of_nat (count_occ Z.eq_dec l h))) (first_seen l)).

(** Calculates 6 simple metrics for the provided dataframe. *)
Definition get_kpi_metrics (df : DataFrame) : KPI :=
  if empty df then mkKPI 0 0 0 0 0 0
  else
    let dep := amount_sum (select amount_pos df) in
    let withd := Z.abs (amount_sum (select amount_neg df)) in
    let count := Z.of_nat (List.length (rows df)) in
    let cashback := amount_sum (select (type_is "Cashback") df) in
    let interest := amount_sum (select (type_is "Interest Deposit") df) in
    let bal :=
      if negb (empty df)
      then match sort_desc S date_key (rows df) with
           | r :: _ => Balance r
           | [] => 0   (* not reached: a sorted non-empty frame has a row *)
           end
      else 0 in
    mkKPI dep withd bal count cashback interest.

(** Income vs Expense Donut Chart: the two values of its source frame. *)
Definition make_donut_chart (df : DataFrame) : list (string * Z) :=
  let inc := amount_sum (select amount_pos df) in
  let exp := Z.abs (amount_sum (select amount_neg df)) in
  [("Income"%string, inc); ("Expenses"%string, exp)].

(** Monthly Income vs Expense Grouped Bar: the frame [trend_melted].  (The
    frame [monthly] the function also builds is not used by it.) *)
Definition make_bar_trend (df : DataFrame) : list (string * string * Z) :=
  melt (trend_df df).

(** Diverging Bar Chart for Net Income: the frame [net], Month and
    NetIncome. *)
Definition make_net_income_chart (df : DataFrame) : list (string * option Z) :=
  let inc := monthly_income df in
  let exp := monthly_expense df in
  series_sub inc exp.

(** Hourly Activity Histogram: the frame [hourly], and the frame [df] as the
    call leaves it ([df['Hour'] = ...] assigns a column of the argument). *)
Definition make_heatmap (df : DataFrame) : list (Z * Z) * DataFrame :=
  let hours := map (fun r => hour (Date r)) (rows df) in
  let df := {| rows := rows df; Hour := Some hours |} in
  (value_counts hours, df).

(** Top 15 Remarks Bar Chart: the frame [grouped]; the empty frame when the
    subset is empty. *)
Definition make_remarks_chart (df : DataFrame) (is_negative : bool) : Series :=
  let subset := if is_negative then select amount_neg df
                else select amount_pos df in
  if empty subset then []
  else
    let grouped :=
      series_abs (groupby_sum Remarks Transaction_Amount (rows subset)) in
    firstn 15 (sort_desc S snd grouped).

(** Total Amount by Transaction Type: Transaction_Type, Transaction_Amount,
    Abs_Amount. *)
Definition make_transaction_type_chart (df : DataFrame)
  : list (string * Z * Z) :=
  let stats := groupby_sum Transaction_Type Transaction_Amount (rows df) in
  let stats := map (fun kv => (fst kv, snd kv, Z.abs (snd kv))) stats in
  sort_desc S snd stats.

(** The month filter of [main]. *)
Definition filter_months (year_filtered_df : DataFrame)
  (selected_months_int : list Z) : DataFrame :=
  match selected_months_int with
  | [] =>
      let filtered_df := year_filtered_df in  (* Fallback? Or empty? *)
      let filtered_df :=
        select (fun r => isin (month (Date r)) []) year_filtered_df in
      filtered_df
  | _ :: _ =>
      select (fun r => isin (month (Date r)) selected_months_int)
             year_filtered_df
  end.

(** What one pass of [main] leaves behind: the three frames it holds and the
    data of every chart. *)
Record Dashboard := mkDashboard {
  raw_df : DataFrame;
  year_filtered_df : DataFrame;
  filtered_df : DataFrame;
  metrics : KPI;
  bar_trend : list (string * string * Z);
  donut : list (string * Z);
  net_income : list (string * option Z);
  heatmap : list (Z * Z);
  top_withdrawals : Series;
  top_deposits : Series;
  type_totals : list (string * Z * Z)
}.

(** [main], from the loaded table on.  With no year selected it warns and
    returns before anything is computed. *)
Definition main (raw : DataFrame) (selected_years selected_months_int : list Z)
  : option Dashboard :=
  match selected_years with
  | [] => None
  | _ :: _ =>
      let year_filtered :=
        select (fun r => isin (year (Date r)) selected_years) raw in
      let filtered := filter_months year_filtered selected_months_int in
      let metrics := get_kpi_metrics filtered in
      let trend := make_bar_trend filtered in
      let donut := make_donut_chart filtered in
      let net := make_net_income_chart filtered in
      let '(hourly, filtered) := make_heatmap filtered in
      let top_w := make_remarks_chart filtered true in
      let top_d := make_remarks_chart filtered false in
      let types := make_transaction_type_chart filtered in
      Some (mkDashboard raw year_filtered filtered metrics trend donut net
              hourly top_w top_d types)
  end.

End Aggregator.

(** ** The rest of [main]: the filter options and the table view *)

(** A Python dict, as its items in insertion order.  [dict_get] is [d[k]]
    ([None] for a KeyError), [dict_set] is [d[k] = v], [dict_of] is the
    comprehension [{k: v for k, v in items}]. *)
Section Dict.

Context {K V : Type} (eqb : K -> K -> bool).

Fixpoint dict_get (k : K) (d : list (K * V)) : option V :=
  match d with
  | [] => None
  | (k', v) :: d' => if eqb k k' then Some v else dict_get k d'
  end.

Fixpoint dict_set (k : K) (v : V) (d : list (K * V)) : list (K * V) :=
  match d with
  | [] => [(k, v)]
  | (k', v') :: d' =>
      if eqb k k' then (k', v) :: d' else (k', v') :: dict_set k v d'
  end.

Definition dict_of (items : list (K * V)) : list (K * V) :=
  fold_left (fun d kv => dict_set (fst kv) (snd kv) d) items [].

End Dict.

(** A list comprehension whose element may raise: [None] as soon as one
    does. *)
Fixpoint all_some {A} (l : list (option A)) : option (list A) :=
  match l with
  | [] => Some []
  | None :: _ => None
  | Some a :: l' => option_map (cons a) (all_some l')
  end.

(** [sorted(s.unique())] on integers. *)
Fixpoint insert_Z (x : Z) (l : list Z) : list Z :=
  match l with
  | [] => [x]
  | y :: l' => if x <=? y then x :: l else y :: insert_Z x l'
  end.

Definition sorted_unique (l : list Z) : list Z :=
  fold_right insert_Z [] (nodup Z.eq_dec l).

(** [calendar.month_name], an array of 13 names (English in the default
    locale) that is indexed like a list: from the end for a negative index,
    IndexError ([None]) outside. *)
Definition MONTH_NAMES : list string :=
  [""; "January"; "February"; "March"; "April"; "May"; "June"; "July";
   "August"; "September"; "October"; "November"; "December"]%string.

Definition month_name (m : Z) : option string :=
  if (0 <=? m) && (m <=? 12) then nth_error MONTH_NAMES (Z.to_nat m)
  else if (-13 <=? m) && (m <? 0) then nth_error MONTH_NAMES (Z.to_nat (m + 13))
  else None.

(** [sorted(raw_df['Date'].dt.year.unique())] *)
Definition available_years (raw_df : DataFrame) : list Z :=
  sorted_unique (map (fun r => year (Date r)) (rows raw_df)).

(** [[available_years[-1]] if available_years else available_years] *)
Definition default_years (available_years : list Z) : list Z :=
  match available_years with
  | [] => available_years
  | _ :: _ => [last available_years 0]
  end.

(** [sorted(year_filtered_df['Date'].dt.month.unique())] *)
Definition available_months_int (year_filtered_df : DataFrame) : list Z :=
  sorted_unique (map (fun r => month (Date r)) (rows year_filtered_df)).

(** [{m: calendar.month_name[m] for m in available_months_int}] *)
Definition month_map (available_months_int : list Z)
  : option (list (Z * string)) :=
  option_map (dict_of Z.eqb)
    (all_some (map (fun m => option_map (pair m) (month_name m))
                   available_months_int)).

(** [[month_map[m] for m in available_months_int]] *)
Definition month_options (month_map : list (Z * string))
  (available_months_int : list Z) : option (list string) :=
  all_some (map (fun m => dict_get Z.eqb m month_map) available_months_int).

(** [{v: k for k, v in month_map.items()}] *)
Definition reverse_month_map (month_map : list (Z * string))
  : list (string * Z) :=
  dict_of String.eqb (map (fun kv => (snd kv, fst kv)) month_map).

(** [[reverse_month_map[m] for m in selected_months_str]] *)
Definition selected_months_int (reverse_month_map : list (string * Z))
  (selected_months_str : list string) : option (list Z) :=
  all_some (map (fun m => dict_get String.eqb m reverse_month_map)
                selected_months_str).

(** The frame [display_df] of the raw data table: six columns of the
    filtered set, copied; in privacy mode four of them are overwritten. *)
Record DisplayRow := mkDisplayRow {
  d_Date : Timestamp;
  d_Transaction_Type : option string;
  d_Remarks : cell;
  d_Transaction_Amount : cell;
  d_Balance : cell;
  d_Bank_Name : cell
}.

Definition text_cell (o : option string) : cell :=
  match o with
  | Some s => Str s
  | None => NaN
  end.

Definition display_df (filtered_df : DataFrame) (privacy_mode : bool)
  : list DisplayRow :=
  let display_df :=
    map (fun r => mkDisplayRow (Date r) (Transaction_Type r)
                    (text_cell (Remarks r)) (Num (Transaction_Amount r))
                    (Num (Balance r)) (text_cell (Bank_Name r)))
        (rows filtered_df) in
  if privacy_mode then
    let display_df :=
      map (fun d => mkDisplayRow (d_Date d) (d_Transaction_Type d)
                      (Str "****") (d_Transaction_Amount d) (d_Balance d)
                      (d_Bank_Name d)) display_df in
    let display_df :=
      map (fun d => mkDisplayRow (d_Date d) (d_Transaction_Type d)
                      (d_Remarks d) (Num 0) (d_Balance d) (d_Bank_Name d))
          display_df in
    let display_df :=
      map (fun d => mkDisplayRow (d_Date d) (d_Transaction_Type d)
                      (d_Remarks d) (Str "****") (d_Balance d) (d_Bank_Name d))
          display_df in
    let display_df :=
      map (fun d => mkDisplayRow (d_Date d) (d_Transaction_Type d)
                      (d_Remarks d) (d_Transaction_Amount d) (Str "****")
                      (d_Bank_Name d)) display_df in
    let display_df :=
      map (fun d => mkDisplayRow (d_Date d) (d_Transaction_Type d)
                      (d_Remarks d) (d_Transaction_Amount d) (d_Balance d)
                      (Str "****")) display_df in
    display_df
  else display_df.

(** ** A sort that meets the contract

    Insertion sort into descending key order.  [ties_first] says where a row
    goes among rows of the same key: with [true] rows of equal key stay in
    their original order, with [false] a row comes after the later rows of
    its key. *)

Section Insertion.

Context {A : Type} (key : A -> Z).

Fixpoint insert_desc (ties_first : bool) (x : A) (l : list A) : list A :=
  match l with
  | [] => [x]
  | y :: l' =>
      if (if ties_first then key y <=? key x else key y <? key x)
      then x :: l
      else y :: insert_desc ties_first x l'
  end.

Definition isort_desc (ties_first : bool) (l : list A) : list A :=
  fold_right (insert_desc ties_first) [] l.

Lemma insert_desc_perm b x l : Permutation (x :: l) (insert_desc b x l).
Proof.
  induction l as [|y l IH]; simpl; [reflexivity|].
  destruct (if b then key y <=? key x else key y <? key x); [reflexivity|].
  rewrite perm_swap. now constructor.
Qed.

Lemma isort_desc_perm b l : Permutation l (isort_desc b l).
Proof.
  induction l as [|x l IH]; simpl; [constructor|].
  rewrite <- insert_desc_perm. now constructor.
Qed.

Lemma insert_desc_sorted b x l :
  StronglySorted (fun a c => key c <= key a) l ->
  StronglySorted (fun a c => key c <= key a) (insert_desc b x l).
Proof.
  induction 1 as [|y l Hs IH Hy]; simpl.
  - repeat constructor.
  - destruct (if b then key y <=? key x else key y <? key x) eqn:E.
    + constructor; [now constructor|].
      assert (key y <= key x) by (destruct b; lia).
      constructor; [assumption|].
      eapply Forall_impl; [|exact Hy]. simpl. intros; lia.
    + constructor; [assumption|].
      eapply Permutation_Forall; [apply insert_desc_perm|].
      constructor; [|assumption].
      destruct b; lia.
Qed.

Lemma isort_desc_sorted b l :
  StronglySorted (fun a c => key c <= key a) (isort_desc b l).
Proof.
  induction l as [|x l IH]; simpl; [constructor|].
  now apply insert_desc_sorted.
Qed.

End Insertion.

Definition stable_sorter : Sorter := {|
  sort_desc A key l := isort_desc key true l;
  sort_desc_perm A key l := isort_desc_perm key true l;
  sort_desc_sorted A key l := isort_desc_sorted key true l
|}.

(** ** The sort pandas runs

    [sort_values(by, ascending=False)] computes its row order in pandas'
    [nargsort]: with ascending=False it reverses the keys, asks numpy for
    an ascending [argsort] with kind='quicksort', and reverses the order it
    gets back.  numpy's quicksort on an index array is an introsort: while a
    segment has more than [SMALL_QUICKSORT] + 1 elements it is partitioned
    around the median of its first, middle and last element; shorter
    segments are sorted by insertion.  The definitions follow the C routine
    [aquicksort_] statement by statement: [tosort] is the index array, a
    position in it stands for the pointer, [v] is the key array.  This is
    the routine numpy runs on keys that are timestamps, which is what
    [get_kpi_metrics] sorts by; for integer and float keys numpy may choose
    a vectorised routine by the processor it runs on, which is not
    modelled. *)

Module Npy.

Definition SMALL_QUICKSORT : nat := 16.

Section Argsort.

Variable v : nat -> Z.

(** [*p] and [*p = x] *)
Definition deref (tosort : list nat) (p : nat) : nat := nth p tosort 0%nat.

Definition store (tosort : list nat) (p x : nat) : list nat :=
  if (p <? List.length tosort)%nat
  then firstn p tosort ++ x :: skipn (Datatypes.S p) tosort
  else tosort.

Definition INTP_SWAP (tosort : list nat) (p q : nat) : list nat :=
  let a := deref tosort p in
  let b := deref tosort q in
  store (store tosort p b) q a.

Definition less (tosort : list nat) (p q : nat) : bool :=
  v (deref tosort p) <? v (deref tosort q).

(** [do { ++pi; } while (v[*pi] < vp);], entered with [pi] already
    incremented once. *)
Fixpoint scan_up (fuel : nat) (vp : Z) (tosort : list nat) (pi : nat) : nat :=
  match fuel with
  | O => pi
  | Datatypes.S fuel' =>
      if v (deref tosort pi) <? vp
      then scan_up fuel' vp tosort (Datatypes.S pi)
      else pi
  end.

(** [do { --pj; } while (vp < v[*pj]);], entered with [pj] already
    decremented once. *)
Fixpoint scan_down (vp : Z) (tosort : list nat) (pj : nat) : nat :=
  match pj with
  | O => O
  | Datatypes.S pj' =>
      if vp <? v (deref tosort pj) then scan_down vp tosort pj' else pj
  end.

(** The loop [for (;;)] of the partition. *)
Fixpoint exchange (fuel : nat) (vp : Z) (tosort : list nat) (pi pj : nat)
  : list nat * nat :=
  match fuel with
  | O => (tosort, pi)
  | Datatypes.S fuel' =>
      let pi := scan_up (List.length tosort) vp tosort (Datatypes.S pi) in
      let pj := scan_down vp tosort (pj - 1) in
      if (pj <=? pi)%nat then (tosort, pi)
      else exchange fuel' vp (INTP_SWAP tosort pi pj) pi pj
  end.

(** One partition of the segment from [pl] to [pr]: the index array after
    it and the position [pi] of the pivot. *)
Definition partition (tosort : list nat) (pl pr : nat) : list nat * nat :=
  let pm := (pl + Nat.div2 (pr - pl))%nat in
  let tosort := if less tosort pm pl then INTP_SWAP tosort pm pl else tosort in
  let tosort := if less tosort pr pm then INTP_SWAP tosort pr pm else tosort in
  let tosort := if less tosort pm pl then INTP_SWAP tosort pm pl else tosort in
  let vp := v (deref tosort pm) in
  let pi := pl in
  let pj := (pr - 1)%nat in
  let tosort := INTP_SWAP tosort pm pj in
  let '(tosort, pi) := exchange (List.length tosort) vp tosort pi pj in
  let pk := (pr - 1)%nat in
  (INTP_SWAP tosort pi pk, pi).

(** The inner loop of the insertion sort: the element [vi] taken from
    position [pi] moves down past every element with a greater key. *)
Fixpoint shift (pl vi : nat) (tosort : list nat) (pj : nat) : list nat :=
  match pj with
  | O => store tosort O vi
  | Datatypes.S pk =>
      if (pl <? pj)%nat && (v vi <? v (deref tosort pk))
      then shift pl vi (store tosort pj (deref tosort pk)) pk
      else store tosort pj vi
  end.

Definition insertion_sort (tosort : list nat) (pl pr : nat) : list nat :=
  fold_left (fun tosort pi => shift pl (deref tosort pi) tosort pi)
            (seq (Datatypes.S pl) (pr - pl)) tosort.

(** The segment from [pl] to [pr].  The routine keeps the larger part of a
    partition on a stack and goes on with the smaller one; the two parts do
    not overlap, so each is sorted here in turn.  [popped] says that the
    segment comes from the stack, where the routine first looks at the
    depth it has left and switches to heapsort below zero; that branch is
    not modelled ([None]). *)
Fixpoint aquicksort_ (fuel : nat) (popped : bool) (cdepth : Z)
  (tosort : list nat) (pl pr : nat) : option (list nat) :=
  match fuel with
  | O => None
  | Datatypes.S fuel' =>
      if popped && (cdepth <? 0) then None
      else if (SMALL_QUICKSORT <? pr - pl)%nat then
        let '(tosort, pi) := partition tosort pl pr in
        let cdepth := cdepth - 1 in
        if (pi - pl <? pr - pi)%nat then
          match aquicksort_ fuel' false cdepth tosort pl (pi - 1) with
          | Some tosort => aquicksort_ fuel' true cdepth tosort (pi + 1) pr
          | None => None
          end
        else
          match aquicksort_ fuel' false cdepth tosort (pi + 1) pr with
          | Some tosort => aquicksort_ fuel' true cdepth tosort pl (pi - 1)
          | None => None
          end
      else Some (insertion_sort tosort pl pr)
  end.

(** [np.argsort(v, kind='quicksort')] on [num] keys. *)
Definition argsort (num : nat) : option (list nat) :=
  aquicksort_ (Datatypes.S num) true (2 * Z.log2 (Z.of_nat num))
              (seq 0 num) 0 (num - 1).

End Argsort.

End Npy.

(** [items.take(indexer)] *)
Definition take {A} (items : list A) (indexer : list nat) : list A :=
  flat_map (fun i => match nth_error items i with
                     | Some x => [x]
                     | None => []
                     end) indexer.

(** [nargsort(items, kind='quicksort', ascending=False)] on keys without
    missing values. *)
Definition nargsort {A} (key : A -> Z) (items : list A) : option (list nat) :=
  let idx := seq 0 (List.length items) in
  let non_nans := rev items in
  let non_nan_idx := rev idx in
  let v := fun i => match nth_error non_nans i with
                    | Some x => key x
                    | None => 0
                    end in
  match Npy.argsort v (List.length non_nans) with
  | Some order =>
      let indexer := map (fun i => nth i non_nan_idx 0%nat) order in
      Some (rev indexer)
  | None => None
  end.

(** Whether [indexer] names every position below [n] once, and whether a
    list is in descending key order: what a run of the sort is checked
    against. *)
Definition is_indexer (n : nat) (indexer : list nat) : bool :=
  (List.length indexer =? n)%nat &&
  forallb (fun i => existsb (Nat.eqb i) indexer) (seq 0 n).

Fixpoint descending {A} (key : A -> Z) (l : list A) : bool :=
  match l with
  | [] => true
  | x :: l' =>
      match l' with
      | [] => true
      | y :: _ => (key y <=? key x) && descending key l'
      end
  end.

(** [sort_values(by, ascending=False)]: the rows in the order [nargsort]
    gives.  Where the model of the sort has no answer (the heapsort branch)
    or an answer that is not a descending rearrangement, the rows are sorted
    by insertion instead; on every run of the quicksort followed here the
    answer is its own. *)
Definition sort_values_desc {A} (key : A -> Z) (items : list A) : list A :=
  match nargsort key items with
  | Some indexer =>
      let sorted := take items indexer in
      if is_indexer (List.length items) indexer && descending key sorted
      then sorted
      else isort_desc key true items
  | None => isort_desc key true items
  end.

Lemma take_all {A} (items : list A) :
  take items (seq 0 (List.length items)) = items.
Proof.
  unfold take. induction items as [|x items IH]; [reflexivity|].
  cbn [List.length seq flat_map nth_error app]. f_equal.
  rewrite <- seq_shift, flat_map_concat_map, map_map.
  rewrite <- flat_map_concat_map. exact IH.
Qed.

Lemma is_indexer_perm n indexer :
  is_indexer n indexer = true -> Permutation (seq 0 n) indexer.
Proof.
  unfold is_indexer. rewrite andb_true_iff, Nat.eqb_eq, forallb_forall.
  intros [Hlen Hall].
  apply NoDup_Permutation_bis.
  - apply seq_NoDup.
  - rewrite length_seq. lia.
  - intros i Hi. specialize (Hall i Hi).
    apply existsb_exists in Hall. destruct Hall as [j [Hj E]].
    apply Nat.eqb_eq in E. now subst.
Qed.

Lemma descending_sorted {A} (key : A -> Z) l :
  descending key l = true ->
  StronglySorted (fun a b => key b <= key a) l.
Proof.
  intros H. apply Sorted_StronglySorted.
  - intros a b c Hab Hbc. lia.
  - induction l as [|x l IH]; [constructor|].
    destruct l as [|y l].
    + repeat constructor.
    + cbn [descending] in H. apply andb_true_iff in H. destruct H as [H1 H2].
      constructor; [now apply IH|]. constructor. lia.
Qed.

Lemma sort_values_desc_perm {A} (key : A -> Z) l :
  Permutation l (sort_values_desc key l).
Proof.
  unfold sort_values_desc.
  destruct (nargsort key l) as [indexer|]; [|apply isort_desc_perm].
  destruct (is_indexer (List.length l) indexer && descending key (take l indexer))
    eqn:E; [|apply isort_desc_perm].
  apply andb_true_iff in E. destruct E as [E _].
  apply is_indexer_perm in E.
  rewrite <- (take_all l) at 1.
  unfold take. now apply Permutation_flat_map.
Qed.

Lemma sort_values_desc_sorted {A} (key : A -> Z) l :
  StronglySorted (fun a b => key b <= key a) (sort_values_desc key l).
Proof.
  unfold sort_values_desc.
  destruct (nargsort key l) as [indexer|]; [|apply isort_desc_sorted].
  destruct (is_indexer (List.length l) indexer && descending key (take l indexer))
    eqn:E; [|apply isort_desc_sorted].
  apply andb_true_iff in E. destruct E as [_ E].
  now apply descending_sorted.
Qed.

Definition numpy_sorter : Sorter := {|
  sort_desc A key l := sort_values_desc key l;
  sort_desc_perm A key l := sort_values_desc_perm key l;
  sort_desc_sorted A key l := sort_values_desc_sorted key l
|}.

(** ** The aggregations as procedures

    A Python call gets a reference to the frame, not a copy, so a column
    assigned inside a function is there for the caller afterwards.  The
    frames of a run are objects in a heap, named by their position in it; a
    procedure takes the address of its argument and gives its result
    together with the heap it leaves.  [fetch] evaluates an expression that
    reads the frame, [allocate] is an operation that builds a new frame
    (boolean indexing makes a copy), [assign_Hour] is the statement
    [df['Hour'] = ...]. *)

Definition Heap : Type := list DataFrame.

Definition Proc (A : Type) : Type := Heap -> A * Heap.

Definition ret {A} (a : A) : Proc A := fun h => (a, h).

Definition and_then {A B} (m : Proc A) (k : A -> Proc B) : Proc B :=
  fun h => let (a, h') := m h in k a h'.

Notation "x <~ m ;; k" := (and_then m (fun x => k))
  (at level 61, m at next level, right associativity).

Fixpoint update {A} (i : nat) (f : A -> A) (l : list A) {struct l} : list A :=
  match l, i with
  | [], _ => []
  | x :: l', O => f x :: l'
  | x :: l', Datatypes.S i' => x :: update i' f l'
  end.

Definition fetch (df : nat) : Proc DataFrame :=
  fun h => (nth df h (frame []), h).

Definition allocate (d : DataFrame) : Proc nat :=
  fun h => (List.length h, h ++ [d]).

Definition assign_Hour (df : nat) (hours : list Z) : Proc unit :=
  fun h => (tt, update df (fun d => {| rows := rows d; Hour := Some hours |}) h).

Section Procedures.

Variable S : Sorter.

(** The bodies of [get_kpi_metrics], [make_donut_chart], [make_bar_trend],
    [make_net_income_chart], [make_remarks_chart] and
    [make_transaction_type_chart] only evaluate expressions over [df]
    ([df.empty], [len(df)], boolean indexing, [groupby], [sort_values]),
    each of which builds a new object; every assignment in them is to a
    local name or to a column of a frame built there ([monthly], [source],
    [net], [stats]).  [make_heatmap] starts with an assignment to a column
    of [df] itself and reads the column back. *)
Definition get_kpi_metrics_proc (df : nat) : Proc KPI :=
  d <~ fetch df ;; ret (get_kpi_metrics S d).

Definition make_donut_chart_proc (df : nat) : Proc (list (string * Z)) :=
  d <~ fetch df ;; ret (make_donut_chart d).

Definition make_bar_trend_proc (df : nat) : Proc (list (string * string * Z)) :=
  d <~ fetch df ;; ret (make_bar_trend d).

Definition make_net_income_chart_proc (df : nat)
  : Proc (list (string * option Z)) :=
  d <~ fetch df ;; ret (make_net_income_chart d).

Definition make_heatmap_proc (df : nat) : Proc (list (Z * Z)) :=
  d <~ fetch df ;;
  _ <~ assign_Hour df (map (fun r => hour (Date r)) (rows d)) ;;
  d <~ fetch df ;;
  let hourly := value_counts S (match Hour d with Some c => c | None => [] end) in
  ret hourly.

Definition make_remarks_chart_proc (df : nat) (is_negative : bool)
  : Proc Series :=
  d <~ fetch df ;; ret (make_remarks_chart S d is_negative).

Definition make_transaction_type_chart_proc (df : nat)
  : Proc (list (string * Z * Z)) :=
  d <~ fetch df ;; ret (make_transaction_type_chart S d).

(** [main] from the loaded table on, with the table at address [raw_df].
    The two filters are boolean indexings, so [year_filtered_df] and
    [filtered_df] are new objects (with no month selected [filtered_df] is
    first bound to [year_filtered_df] and at once rebound to the result of
    an indexing). *)
Definition main_proc (raw_df : nat) (selected_years selected_months_int : list Z)
  : Proc (option Dashboard) :=
  match selected_years with
  | [] => ret None
  | _ :: _ =>
      raw <~ fetch raw_df ;;
      year_filtered_df <~
        allocate (select (fun r => isin (year (Date r)) selected_years) raw) ;;
      year_filtered <~ fetch year_filtered_df ;;
      filtered_df <~
        allocate (filter_months year_filtered selected_months_int) ;;
      metrics <~ get_kpi_metrics_proc filtered_df ;;
      trend <~ make_bar_trend_proc filtered_df ;;
      donut <~ make_donut_chart_proc filtered_df ;;
      net <~ make_net_income_chart_proc filtered_df ;;
      hourly <~ make_heatmap_proc filtered_df ;;
      top_w <~ make_remarks_chart_proc filtered_df true ;;
      top_d <~ make_remarks_chart_proc filtered_df false ;;
      types <~ make_transaction_type_chart_proc filtered_df ;;
      raw <~ fetch raw_df ;;
      year_filtered <~ fetch year_filtered_df ;;
      filtered <~ fetch filtered_df ;;
      ret (Some (mkDashboard raw year_filtered filtered metrics trend donut
                   net hourly top_w top_d types))
  end.

End Procedures.

(** * Vocabulary of the statements, and sample data *)

(** The tables the normaliser is studied on: after the renaming no two
    columns share a label ([pd.read_excel] itself never yields a repeated
    header), and all columns have the same number of cells. *)
Fixpoint distinct (l : list string) : bool :=
  match l with
  | [] => true
  | x :: l' => negb (Pd.mem x l') && distinct l'
  end.

Definition rectangular (df : Frame) : bool :=
  match df with
  | [] => true
  | c :: df' =>
      forallb (fun c' => Nat.eqb (List.length (snd c')) (List.length (snd c))) df'
  end.

Definition well_formed (raw : Frame) : bool :=
  distinct (Pd.labels (Pd.rename COLUMN_NAMES raw)) && rectangular raw.

(** The labels [load_and_clean_data] looks up, by their names after the
    renaming, in the order it reaches them. *)
Definition LOOKED_UP : list string :=
  ["Unnamed: 0"; "Memo"; "Account_Number"; "Transaction_Type"; "Date"]%string.

Definition has (l : string) (df : Frame) : bool := Pd.mem l (Pd.labels df).

(** [df] without its column [l]. *)
Definition without (l : string) (df : Frame) : Frame :=
  filter (fun c => negb (String.eqb (fst c) l)) df.

(** The label a column [l] has after [rename]. *)
Definition renamed (m : list (string * string)) (l : string) : string :=
  match Pd.lookup l m with
  | Some n => n
  | None => l
  end.

(** The vendor headers of the renaming table that [load_and_clean_data]
    renames and never looks at again: remarks, bank name, amount, balance. *)
Definition NOT_LOOKED_UP : list string :=
  ["적요"; "거래 기관"; "거래 금액"; "거래 후 잔액"]%string.

(** Whether [load_and_clean_data] returns a table, read off the renamed
    table [df1]: the two pruned columns are there, the account numbers
    convert, the type column is there, the timestamps convert. *)
Definition load_succeeds (L : Conversions) (df1 : Frame) : bool :=
  has "Unnamed: 0" df1 && has "Memo" df1 &&
  match Pd.lookup "Account_Number" df1 with
  | Some acc => is_ok (Pd.convert (astype_int L) (Pd.fillna (Num 0) acc))
  | None => false
  end &&
  match Pd.lookup "Transaction_Type" df1 with
  | Some _ => true
  | None => false
  end &&
  match Pd.lookup "Date" df1 with
  | Some d => is_ok (Pd.convert (to_datetime L) d)
  | None => false
  end.

(** The labels [load_and_clean_data] assigns a column to. *)
Definition PRODUCED : list string :=
  ["Date"; "Account_Number"; "Transaction_Type"; "Time"; "DateOnly";
   "Month"]%string.

(** The canonical name of a vendor label: its entry in the table, or the
    label itself. *)
Definition canonical (s : string) : string :=
  match Pd.lookup s TYPE_NAMES with
  | Some s' => s'
  | None => s
  end.

(** Timestamps whose fields are in calendar range, and the field by field
    order on them, year first. *)
Definition in_range (t : Timestamp) : Prop :=
  1 <= month t <= 12 /\ 1 <= day t <= 31 /\ 0 <= hour t <= 23 /\
  0 <= minute t <= 59 /\ 0 <= second t <= 59.

Definition earlier (a b : Timestamp) : Prop :=
  year a < year b \/ year a = year b /\
  (month a < month b \/ month a = month b /\
  (day a < day b \/ day a = day b /\
  (hour a < hour b \/ hour a = hour b /\
  (minute a < minute b \/ minute a = minute b /\ second a < second b)))).

(** The row the specification names: among the rows with the greatest
    timestamp, the one that comes first in the table. *)
Fixpoint latest_row (l : list Transaction) : option Transaction :=
  match l with
  | [] => None
  | r :: l' =>
      match latest_row l' with
      | None => Some r
      | Some r' => if date_key r' <=? date_key r then Some r else Some r'
      end
  end.

(** The income and the expense of month [k]: the sum of its positive amounts
    and the absolute sum of its negative amounts. *)
Definition income_of (df : DataFrame) (k : string) : Z :=
  zsum (map Transaction_Amount
          (filter (has_key month_key k) (filter amount_pos (rows df)))).

Definition expense_of (df : DataFrame) (k : string) : Z :=
  Z.abs (zsum (map Transaction_Amount
                 (filter (has_key month_key k) (filter amount_neg (rows df))))).

(** Whether month [k] has a row that satisfies [p]. *)
Definition month_has (p : Transaction -> bool) (df : DataFrame) (k : string)
  : bool :=
  existsb (fun r => p r && has_key month_key k r) (rows df).

(** The name of month [m], for [m] from 1 to 12. *)
Definition name_of (m : Z) : string := nth (Z.to_nat m) MONTH_NAMES EmptyString.

(** The rows a ranking is computed from. *)
Definition wanted (is_negative : bool) : Transaction -> bool :=
  if is_negative then amount_neg else amount_pos.

Definition grouped_remarks (df : DataFrame) (is_negative : bool) : Series :=
  series_abs (groupby_sum Remarks Transaction_Amount
                (filter (wanted is_negative) (rows df))).

(** ** Machine arithmetic

    An int64 cell holds [wrap64 z].  numpy adds the cells of an int64 column
    without a check, so the sum of the column is [sum64] of its values
    (whatever the order of the additions), and the absolute value of an
    int64 is [abs64].  On a frame whose absolute amounts add up to less than
    2^53 none of this differs from the integers, and a float64 holds every
    sum of amounts of the frame exactly. *)
Definition wrap64 (z : Z) : Z := (z + 2 ^ 63) mod 2 ^ 64 - 2 ^ 63.

Definition sum64 (l : list Z) : Z :=
  fold_left (fun acc x => wrap64 (acc + x)) l 0.

Definition abs64 (z : Z) : Z := wrap64 (Z.abs z).

Definition sums_exact (df : DataFrame) : Prop :=
  zsum (map (fun r => Z.abs (Transaction_Amount r)) (rows df)) < 2 ^ 53.

(** ** Sample workbooks *)

Definition sample_raw : Frame :=
  [ ("Unnamed: 0", [NaN; NaN]);
    ("거래 일시", [Str "2024.01.15 09:30:00"; Str "2024.02.03 21:05:10"]);
    ("적요", [Str "스타벅스"; Str "Apple"]);
    ("거래 유형", [Str "체크카드결제"; Str "해외결제"]);
    ("거래 기관", [Str "토스뱅크"; Str "토스뱅크"]);
    ("계좌번호", [NaN; Num 1234]);
    ("거래 금액", [Num (-4500); Num (-12000)]);
    ("거래 후 잔액", [Num 95500; Num 83500]);
    ("메모", [NaN; NaN]) ]%string.

Definition loaded (r : result (option Frame)) : Frame :=
  match r with
  | Ok (Some df) => df
  | _ => []
  end.

Definition sample_clean : Frame :=
  Eval vm_compute in loaded (load_and_clean_data plain (Some sample_raw)).

Definition sample_blank_type : Frame :=
  Pd.setitem "거래 유형" [Str "입금"; NaN] sample_raw.

Definition sample_bad_date : Frame :=
  Pd.setitem "거래 일시"
    [Str "2024.01.15 09:30:00"; Str "2024/02/03 21:05"] sample_raw.

(** ** The example of the specification *)

Definition tx (t : Timestamp) (remarks type : string) (amount bal : Z)
  : Transaction :=
  mkTx t (Some remarks) (Some type) (Some "Toss"%string) 0 amount bal.

Definition example_df : DataFrame :=
  frame [ tx (mkTs 2024 1 10 9 0 0) "salary" "Deposit" 100000 100000;
          tx (mkTs 2024 2 5 18 30 0) "rent" "Withdrawal" (-40000) 60000 ].

Definition memo_row : Transaction :=
  tx (mkTs 2024 1 20 12 0 0) "notice" "Deposit" 0 100000.

Definition tied_df : DataFrame :=
  frame [ tx (mkTs 2024 3 1 10 0 0) "transfer in" "Deposit" 5000 15000;
          tx (mkTs 2024 3 1 10 0 0) "transfer out" "Withdrawal" (-5000) 10000 ].

Definition tied_remarks_df : DataFrame :=
  frame [ tx (mkTs 2024 3 2 8 0 0) "bakery" "Check Card" (-3000) 97000;
          tx (mkTs 2024 3 2 20 0 0) "cinema" "Check Card" (-3000) 94000 ].

Definition both_sides_df : DataFrame :=
  frame [ tx (mkTs 2024 1 10 9 0 0) "salary" "Deposit" 100000 100000;
          tx (mkTs 2024 1 12 9 0 0) "rent" "Withdrawal" (-40000) 60000;
          tx (mkTs 2024 1 20 12 0 0) "notice" "Deposit" 0 60000 ].

Definition both_years_df : DataFrame :=
  frame [ tx (mkTs 2023 12 30 9 0 0) "gift" "Deposit" 20000 20000;
          tx (mkTs 2024 2 5 18 30 0) "rent" "Withdrawal" (-15000) 5000;
          tx (mkTs 2024 1 10 9 0 0) "salary" "Deposit" 100000 105000 ].

Definition same_times_df : DataFrame :=
  frame [ tx (mkTs 2024 3 1 10 0 0) "pharmacy" "Deposit" 700 900;
          tx (mkTs 2024 3 1 10 0 0) "taxi" "Withdrawal" (-300) 600 ].

(** Forty transactions in time order, one an hour from 2024-03-01 00:00 on;
    the last one carries the timestamp of the one before it. *)
Definition chronological_df : DataFrame :=
  frame (map (fun i => tx (mkTs 2024 3 (1 + i / 24) (i mod 24) 0 0)
                          "coffee" "Check Card" (-1000)
                          (100000 - 1000 * (i + 1)))
             (map Z.of_nat (seq 0 39))
         ++ [tx (mkTs 2024 3 2 14 0 0) "transfer fee" "Withdrawal" (-500)
                60500]).

(** A frame that comes with a column [Hour] of its own. *)
Definition hour_column_df : DataFrame :=
  {| rows := rows example_df; Hour := Some [0; 0] |}.

(** * Properties of the normaliser *)

Example parse_sample :
  parse_timestamp "2024.01.15 09:30:00" = Some (mkTs 2024 1 15 9 30 0).
Proof. reflexivity. Qed.

Example parse_bad_day : parse_timestamp "2023.02.29 09:30:00" = None.
Proof. reflexivity. Qed.

Example month_str_sample : month_str (mkTs 2024 1 15 9 30 0) = "2024-01"%string.
Proof. reflexivity. Qed.

Lemma lookup_has l (df : Frame) :
  match Pd.lookup l df with
  | Some _ => has l df = true
  | None => has l df = false
  end.
Proof.
  unfold has, Pd.mem, Pd.labels.
  induction df as [|[k v] df IH]; simpl; [reflexivity|].
  destruct (String.eqb l k); simpl; [reflexivity|exact IH].
Qed.

Lemma lookup_setitem_same l v (df : Frame) :
  Pd.lookup l (Pd.setitem l v df) = Some v.
Proof.
  unfold Pd.setitem. fold (has l df).
  destruct (has l df) eqn:E.
  - unfold has, Pd.mem, Pd.labels in E.
    induction df as [|[k w] df IH]; simpl in *; [discriminate|].
    destruct (String.eqb l k) eqn:Ek; simpl; rewrite Ek; [reflexivity|].
    apply IH. exact E.
  - pose proof (lookup_has l df) as Hl. rewrite E in Hl.
    induction df as [|[k w] df IH]; simpl in *.
    + now rewrite String.eqb_refl.
    + destruct (String.eqb l k) eqn:Ek; [discriminate|].
      apply IH; [|exact Hl].
      unfold has, Pd.mem, Pd.labels in *. simpl in E. rewrite Ek in E. exact E.
Qed.

Lemma lookup_setitem_other k l v (df : Frame) :
  String.eqb k l = false ->
  Pd.lookup k (Pd.setitem l v df) = Pd.lookup k df.
Proof.
  intros Hkl. unfold Pd.setitem.
  destruct (Pd.mem l (Pd.labels df)).
  - induction df as [|[k' w] df IH]; simpl; [reflexivity|].
    destruct (String.eqb l k') eqn:E; simpl.
    + apply String.eqb_eq in E. subst k'. rewrite Hkl. exact IH.
    + destruct (String.eqb k k'); [reflexivity|exact IH].
  - induction df as [|[k' w] df IH]; simpl.
    + now rewrite Hkl.
    + destruct (String.eqb k k'); [reflexivity|exact IH].
Qed.

Lemma lookup_pruned k ls (df : Frame) :
  Pd.mem k ls = false ->
  Pd.lookup k (filter (fun c => negb (Pd.mem (fst c) ls)) df) = Pd.lookup k df.
Proof.
  intros Hk.
  induction df as [|[k' w] df IH]; simpl; [reflexivity|].
  destruct (String.eqb k k') eqn:E.
  - apply String.eqb_eq in E. subst k'. rewrite Hk. simpl.
    now rewrite String.eqb_refl.
  - destruct (negb (Pd.mem k' ls)); simpl; [rewrite E|]; exact IH.
Qed.

Lemma drop_dropped (df : Frame) :
  Pd.drop DROPPED df =
  match negb (has "Unnamed: 0" df), negb (has "Memo" df) with
  | false, false =>
      Ok (filter (fun c => negb (Pd.mem (fst c) DROPPED)) df)
  | true, false => Raise (KeyError ["Unnamed: 0"%string])
  | false, true => Raise (KeyError ["Memo"%string])
  | true, true => Raise (KeyError DROPPED)
  end.
Proof.
  unfold Pd.drop, DROPPED, has. simpl.
  destruct (Pd.mem "Unnamed: 0" (Pd.labels df)),
           (Pd.mem "Memo" (Pd.labels df)); reflexivity.
Qed.

Lemma convert_raises {B} (f : cell -> option B) s e :
  Pd.convert f s = Raise e -> e = ValueError.
Proof.
  revert e. induction s as [|c s IH]; simpl; intros e H; [discriminate|].
  destruct (f c); [|congruence].
  destruct (Pd.convert f s); simpl in H; [discriminate|].
  injection H as <-. now apply IH.
Qed.

(** A table that lacks one of the labels [load_and_clean_data] looks up is
    refused: the lookup raises, unless a conversion has raised before it. *)
Lemma load_raises L raw :
  forallb (fun l => has l (Pd.rename COLUMN_NAMES raw)) LOOKED_UP = false ->
  exists e, load_and_clean_data L (Some raw) = Raise e.
Proof.
  unfold load_and_clean_data, LOOKED_UP. cbn [forallb].
  set (df1 := Pd.rename COLUMN_NAMES raw).
  rewrite drop_dropped.
  destruct (has "Unnamed: 0" df1); cbn [negb bind andb];
    [|destruct (has "Memo" df1); cbn [negb bind andb]; solve [eauto]].
  destruct (has "Memo" df1); cbn [negb bind andb]; [|solve [eauto]].
  unfold Pd.getitem at 1. rewrite lookup_pruned by reflexivity.
  pose proof (lookup_has "Account_Number" df1) as Ha.
  destruct (Pd.lookup "Account_Number" df1) as [acc|]; rewrite Ha;
    cbn [negb bind andb]; [|solve [eauto]].
  destruct (Pd.convert (astype_int L) _) as [acc'|e]; cbn [bind]; [|solve [eauto]].
  unfold Pd.getitem at 1.
  rewrite lookup_setitem_other by reflexivity.
  rewrite lookup_pruned by reflexivity.
  pose proof (lookup_has "Transaction_Type" df1) as Ht.
  destruct (Pd.lookup "Transaction_Type" df1) as [ty|]; rewrite Ht;
    cbn [negb bind andb]; [|solve [eauto]].
  unfold Pd.getitem at 1.
  rewrite !lookup_setitem_other by reflexivity.
  rewrite lookup_pruned by reflexivity.
  pose proof (lookup_has "Date" df1) as Hd.
  destruct (Pd.lookup "Date" df1) as [d|]; rewrite Hd;
    cbn [negb bind andb]; [|solve [eauto]].
  discriminate.
Qed.

(** Conversely a [KeyError] can only come from one of these labels. *)
Lemma load_key_error L raw ls :
  load_and_clean_data L (Some raw) = Raise (KeyError ls) ->
  forallb (fun l => has l (Pd.rename COLUMN_NAMES raw)) LOOKED_UP = false.
Proof.
  unfold load_and_clean_data, LOOKED_UP. cbn [forallb].
  set (df1 := Pd.rename COLUMN_NAMES raw).
  rewrite drop_dropped.
  destruct (has "Unnamed: 0" df1); cbn [negb bind andb]; [|reflexivity].
  destruct (has "Memo" df1); cbn [negb bind andb]; [|reflexivity].
  unfold Pd.getitem at 1. rewrite lookup_pruned by reflexivity.
  pose proof (lookup_has "Account_Number" df1) as Ha.
  destruct (Pd.lookup "Account_Number" df1) as [acc|]; rewrite Ha;
    cbn [negb bind andb]; [|reflexivity].
  destruct (Pd.convert (astype_int L) _) as [acc'|e] eqn:Ec; cbn [bind].
  2:{ apply convert_raises in Ec. congruence. }
  unfold Pd.getitem at 1.
  rewrite lookup_setitem_other by reflexivity.
  rewrite lookup_pruned by reflexivity.
  pose proof (lookup_has "Transaction_Type" df1) as Ht.
  destruct (Pd.lookup "Transaction_Type" df1) as [ty|]; rewrite Ht;
    cbn [negb bind andb]; [|reflexivity].
  unfold Pd.getitem at 1.
  rewrite !lookup_setitem_other by reflexivity.
  rewrite lookup_pruned by reflexivity.
  pose proof (lookup_has "Date" df1) as Hd.
  destruct (Pd.lookup "Date" df1) as [d|]; rewrite Hd;
    cbn [negb bind andb]; [|reflexivity].
  destruct (Pd.convert (to_datetime L) _) as [d'|e] eqn:Ed; cbn [bind].
  - discriminate.
  - apply convert_raises in Ed. congruence.
Qed.

(** The [Transaction_Type] column of the result is the column of the renamed
    table put through the translation, cell by cell. *)
Lemma load_type_column L raw df ty :
  load_and_clean_data L (Some raw) = Ok (Some df) ->
  Pd.getitem "Transaction_Type" (Pd.rename COLUMN_NAMES raw) = Ok ty ->
  Pd.getitem "Transaction_Type" df = Ok (Pd.replace TYPE_NAMES ty).
Proof.
  unfold load_and_clean_data.
  set (df1 := Pd.rename COLUMN_NAMES raw).
  intros Hload Hty. revert Hload.
  unfold Pd.getitem in Hty.
  destruct (Pd.lookup "Transaction_Type" df1) as [ty'|] eqn:Et;
    [|discriminate].
  injection Hty as ->.
  destruct (Pd.drop DROPPED df1) as [df2|e] eqn:Edrop; cbn [bind];
    [|discriminate].
  assert (Hpr : forall k, Pd.mem k DROPPED = false ->
                          Pd.lookup k df2 = Pd.lookup k df1).
  { intros k Hk. unfold Pd.drop in Edrop.
    destruct (filter _ DROPPED); [|discriminate].
    injection Edrop as <-. exact (lookup_pruned k DROPPED df1 Hk). }
  destruct (Pd.getitem "Account_Number" df2) as [acc|e]; cbn [bind];
    [|discriminate].
  destruct (Pd.convert (astype_int L) _) as [acc'|e]; cbn [bind];
    [|discriminate].
  unfold Pd.getitem at 1.
  rewrite lookup_setitem_other by reflexivity.
  rewrite Hpr by reflexivity. rewrite Et. cbn [bind].
  destruct (Pd.getitem "Date" _) as [d|e]; cbn [bind]; [|discriminate].
  destruct (Pd.convert (to_datetime L) d) as [d'|e]; cbn [bind];
    [|discriminate].
  intros Hdf. injection Hdf as <-.
  unfold Pd.getitem.
  rewrite !lookup_setitem_other by reflexivity.
  now rewrite lookup_setitem_same.
Qed.

Example sample_loads :
  load_and_clean_data plain (Some sample_raw) = Ok (Some sample_clean).
Proof. reflexivity. Qed.

Example sample_clean_columns :
  Pd.labels sample_clean
  = ["Date"; "Remarks"; "Transaction_Type"; "Bank_Name"; "Account_Number";
     "Transaction_Amount"; "Balance"; "Time"; "DateOnly"; "Month"]%string.
Proof. reflexivity. Qed.

Example sample_clean_account :
  Pd.getitem "Account_Number" sample_clean = Ok [Num 0; Num 1234].
Proof. reflexivity. Qed.

Example sample_clean_month :
  Pd.getitem "Month" sample_clean = Ok [Str "2024-01"; Str "2024-02"].
Proof. reflexivity. Qed.

Lemma is_ok_load L raw :
  is_ok (load_and_clean_data L (Some raw))
  = load_succeeds L (Pd.rename COLUMN_NAMES raw).
Proof.
  unfold load_and_clean_data, load_succeeds.
  set (df1 := Pd.rename COLUMN_NAMES raw).
  rewrite drop_dropped.
  destruct (has "Unnamed: 0" df1); cbn [negb bind andb];
    [|destruct (has "Memo" df1); reflexivity].
  destruct (has "Memo" df1); cbn [negb bind andb]; [|reflexivity].
  unfold Pd.getitem at 1. rewrite lookup_pruned by reflexivity.
  destruct (Pd.lookup "Account_Number" df1) as [acc|]; cbn [bind andb];
    [|reflexivity].
  destruct (Pd.convert (astype_int L) _) as [acc'|e]; cbn [bind is_ok andb];
    [|reflexivity].
  unfold Pd.getitem at 1.
  rewrite lookup_setitem_other by reflexivity.
  rewrite lookup_pruned by reflexivity.
  destruct (Pd.lookup "Transaction_Type" df1) as [ty|]; cbn [bind andb];
    [|reflexivity].
  unfold Pd.getitem at 1.
  rewrite !lookup_setitem_other by reflexivity.
  rewrite lookup_pruned by reflexivity.
  destruct (Pd.lookup "Date" df1) as [d|]; cbn [bind andb]; [|reflexivity].
  destruct (Pd.convert (to_datetime L) d) as [d'|e]; reflexivity.
Qed.

(** Taking a column away does not change what is found under any label
    other than the one that column is renamed to. *)
Lemma lookup_rename_without m c k (df : Frame) :
  String.eqb k (renamed m c) = false ->
  Pd.lookup k (Pd.rename m (without c df)) = Pd.lookup k (Pd.rename m df).
Proof.
  intros Hk. unfold Pd.rename, without.
  induction df as [|[n v] df IH]; [reflexivity|].
  cbn [filter map fst snd Pd.lookup].
  destruct (String.eqb n c) eqn:E; cbn [negb].
  - apply String.eqb_eq in E. subst n.
    fold (renamed m c). rewrite Hk. exact IH.
  - cbn [map fst snd Pd.lookup]. now rewrite IH.
Qed.

Lemma has_as_lookup l (df : Frame) :
  has l df = match Pd.lookup l df with Some _ => true | None => false end.
Proof.
  pose proof (lookup_has l df) as H.
  now destruct (Pd.lookup l df).
Qed.

Lemma load_succeeds_without L c raw :
  In c NOT_LOOKED_UP ->
  load_succeeds L (Pd.rename COLUMN_NAMES (without c raw))
  = load_succeeds L (Pd.rename COLUMN_NAMES raw).
Proof.
  intros Hc. unfold load_succeeds. rewrite !has_as_lookup.
  assert (H : forall k, In k LOOKED_UP ->
            Pd.lookup k (Pd.rename COLUMN_NAMES (without c raw))
            = Pd.lookup k (Pd.rename COLUMN_NAMES raw)).
  { intros k Hk. apply lookup_rename_without.
    unfold NOT_LOOKED_UP, LOOKED_UP in *. cbn [In] in Hc, Hk.
    repeat (destruct Hc as [<-|Hc]; [
      repeat (destruct Hk as [<-|Hk]; [reflexivity|]); contradiction |]).
    contradiction. }
  rewrite !H by (unfold LOOKED_UP; cbn [In]; tauto).
  reflexivity.
Qed.

(** ** C2: a table that lacks a vendor column *)

(** C2, as stated, does not hold: the export without its remarks column
    (one of the vendor headers of the renaming table) is normalised without
    any error; the result simply has no Remarks column. *)
Lemma missing_remarks_column_loads :
  ~ (forall L raw k,
        well_formed raw = true ->
        In k (map fst COLUMN_NAMES) ->
        has k raw = false ->
        is_ok (load_and_clean_data L (Some raw)) = false).
Proof.
  intros H.
  specialize (H plain (without "적요" sample_raw) "적요"%string eq_refl).
  assert (Hin : In "적요"%string (map fst COLUMN_NAMES))
    by (right; left; reflexivity).
  specialize (H Hin eq_refl).
  vm_compute in H. discriminate H.
Qed.

Example missing_remarks_result :
  Pd.labels
    (loaded (load_and_clean_data plain (Some (without "적요" sample_raw))))
  = ["Date"; "Transaction_Type"; "Bank_Name"; "Account_Number";
     "Transaction_Amount"; "Balance"; "Time"; "DateOnly"; "Month"]%string.
Proof. reflexivity. Qed.

(** C2, amended: normalisation fails for the whole file whenever, after the
    renaming, one of the five labels it looks up (Unnamed: 0, Memo,
    Account_Number, Transaction_Type, Date) is absent; whether one of the
    other vendor columns (remarks, bank name, amount, balance) is there or
    not makes no difference to its success. *)
Theorem missing_looked_up_label_raises L raw :
  well_formed raw = true ->
  (forallb (fun l => has l (Pd.rename COLUMN_NAMES raw)) LOOKED_UP = false ->
   exists e, load_and_clean_data L (Some raw) = Raise e) /\
  (forall c, In c NOT_LOOKED_UP ->
     is_ok (load_and_clean_data L (Some (without c raw)))
     = is_ok (load_and_clean_data L (Some raw))).
Proof.
  intros _. split.
  - apply load_raises.
  - intros c Hc. rewrite !is_ok_load. now apply load_succeeds_without.
Qed.

Lemma missing_looked_up_label_raises_witness :
  (forallb (fun l => has l (Pd.rename COLUMN_NAMES
                              (without "거래 일시" sample_raw)))
           LOOKED_UP = false ->
   exists e,
     load_and_clean_data plain (Some (without "거래 일시" sample_raw))
     = Raise e) /\
  (forall c, In c NOT_LOOKED_UP ->
     is_ok (load_and_clean_data plain
              (Some (without c (without "거래 일시" sample_raw))))
     = is_ok (load_and_clean_data plain
                (Some (without "거래 일시" sample_raw)))).
Proof.
  apply (missing_looked_up_label_raises plain (without "거래 일시" sample_raw)).
  reflexivity.
Defined.

Example missing_date_column_error :
  load_and_clean_data plain (Some (without "거래 일시" sample_raw))
  = Raise (KeyError ["Date"%string]).
Proof. reflexivity. Qed.

(** ** C3: pruning a column that is not there *)

(** C3, as stated, does not hold: a workbook that is normalised without
    error is refused once its index column is taken away, because
    [drop] raises on a label that is not a column. *)
Lemma drop_absent_column_raises :
  ~ (forall L raw c,
        well_formed raw = true ->
        In c ["Unnamed: 0"; "메모"]%string ->
        is_ok (load_and_clean_data L (Some raw)) = true ->
        is_ok (load_and_clean_data L (Some (without c raw))) = true).
Proof.
  intros H.
  specialize (H plain sample_raw "Unnamed: 0"%string eq_refl
                (or_introl eq_refl) eq_refl).
  vm_compute in H. discriminate H.
Qed.

Example drop_absent_column_error :
  load_and_clean_data plain (Some (without "Unnamed: 0" sample_raw))
  = Raise (KeyError ["Unnamed: 0"%string]).
Proof. reflexivity. Qed.

(** C3, amended: the pruning step needs both columns; when the index column
    or the memo column is absent after the renaming, normalisation stops
    there with a [KeyError] that names the absent ones. *)
Theorem pruning_needs_both_columns L raw :
  well_formed raw = true ->
  has "Unnamed: 0" (Pd.rename COLUMN_NAMES raw)
  && has "Memo" (Pd.rename COLUMN_NAMES raw) = false ->
  load_and_clean_data L (Some raw)
  = Raise (KeyError
             (filter (fun l => negb (has l (Pd.rename COLUMN_NAMES raw)))
                     DROPPED)).
Proof.
  intros _. unfold load_and_clean_data.
  rewrite drop_dropped. unfold DROPPED. cbn [filter].
  destruct (has "Unnamed: 0" _), (has "Memo" _); cbn [negb bind andb];
    intros H; try discriminate H; reflexivity.
Qed.

Lemma pruning_needs_both_columns_witness :
  load_and_clean_data plain (Some (without "메모" sample_raw))
  = Raise (KeyError ["Memo"%string]).
Proof.
  apply (pruning_needs_both_columns plain (without "메모" sample_raw));
    reflexivity.
Defined.

(** ** C8: the transaction type after normalisation *)

(** C8, as stated, does not hold: a row whose type cell is empty in the
    export still has a missing type after normalisation; the translation
    fills nothing in. *)
Lemma empty_type_cell_stays_null :
  ~ (forall L raw df col,
        well_formed raw = true ->
        load_and_clean_data L (Some raw) = Ok (Some df) ->
        Pd.getitem "Transaction_Type" df = Ok col ->
        ~ In NaN col).
Proof.
  intros H.
  apply (H plain sample_blank_type
           (loaded (load_and_clean_data plain (Some sample_blank_type)))
           [Str "Deposit"; NaN]); try reflexivity.
  right. left. reflexivity.
Qed.

(** C8, amended: the type column of the normalised table has one cell for
    every cell of the source column.  A cell that holds a label holds,
    after normalisation, the canonical value when the label is in the
    translation table and the label itself otherwise (no label makes the
    translation raise); a cell that is empty in the source is empty
    afterwards as well. *)
Theorem type_label_translated L raw df ty :
  well_formed raw = true ->
  load_and_clean_data L (Some raw) = Ok (Some df) ->
  Pd.getitem "Transaction_Type" (Pd.rename COLUMN_NAMES raw) = Ok ty ->
  exists col,
    Pd.getitem "Transaction_Type" df = Ok col /\
    List.length col = List.length ty /\
    forall i,
      (forall s, nth_error ty i = Some (Str s) ->
                 nth_error col i = Some (Str (canonical s))) /\
      (nth_error ty i = Some NaN -> nth_error col i = Some NaN).
Proof.
  intros _ Hload Hty.
  exists (Pd.replace TYPE_NAMES ty). split; [|split].
  - now apply (load_type_column L raw).
  - unfold Pd.replace. apply length_map.
  - intros i. unfold Pd.replace. rewrite nth_error_map. split.
    + intros s Hi. rewrite Hi. cbn [option_map Pd.replace1].
      unfold canonical. now destruct (Pd.lookup s TYPE_NAMES).
    + intros Hi. rewrite Hi. reflexivity.
Qed.

Lemma type_label_translated_witness :
  exists col,
    Pd.getitem "Transaction_Type"
      (loaded (load_and_clean_data plain (Some sample_blank_type))) = Ok col /\
    List.length col = List.length [Str "입금"; NaN] /\
    forall i,
      (forall s, nth_error [Str "입금"; NaN] i = Some (Str s) ->
                 nth_error col i = Some (Str (canonical s))) /\
      (nth_error [Str "입금"; NaN] i = Some NaN -> nth_error col i = Some NaN).
Proof.
  apply (type_label_translated plain sample_blank_type
           (loaded (load_and_clean_data plain (Some sample_blank_type)))
           [Str "입금"; NaN]); reflexivity.
Defined.

Example sample_blank_types :
  Pd.getitem "Transaction_Type"
    (loaded (load_and_clean_data plain (Some sample_blank_type)))
  = Ok [Str "Deposit"; NaN].
Proof. reflexivity. Qed.


Example sample_clean_types :
  Pd.getitem "Transaction_Type" sample_clean
  = Ok [Str "Check Card"; Str "해외결제"].
Proof. reflexivity. Qed.

(** * Properties of the aggregator *)

Example example_kpi :
  get_kpi_metrics stable_sorter example_df = mkKPI 100000 40000 60000 2 0 0.
Proof. reflexivity. Qed.

Example example_trend :
  trend_df example_df
  = [("2024-01", 100000, 0); ("2024-02", 0, 40000)]%string.
Proof. reflexivity. Qed.

Example example_heatmap :
  fst (make_heatmap stable_sorter example_df) = [(9, 1); (18, 1)].
Proof. reflexivity. Qed.

(** ** Grouping *)

Lemma insert_key_perm k l : Permutation (k :: l) (insert_key k l).
Proof.
  induction l as [|x l IH]; simpl; [reflexivity|].
  destruct (String.leb k x); [reflexivity|].
  rewrite perm_swap. now constructor.
Qed.

Lemma sort_keys_perm l : Permutation l (sort_keys l).
Proof.
  induction l as [|x l IH]; simpl; [constructor|].
  rewrite <- insert_key_perm. now constructor.
Qed.

Lemma in_unique_keys k l : In k (unique_keys l) <-> In k l.
Proof.
  unfold unique_keys. split; intros H.
  - apply (nodup_In string_dec).
    eapply Permutation_in; [symmetry; apply sort_keys_perm|exact H].
  - eapply Permutation_in; [apply sort_keys_perm|].
    now apply nodup_In.
Qed.

Lemma unique_keys_nodup l : NoDup (unique_keys l).
Proof.
  unfold unique_keys.
  eapply Permutation_NoDup; [apply sort_keys_perm|apply NoDup_nodup].
Qed.

Lemma in_keys_of {A} (key : A -> option string) k l :
  In k (keys_of key l) <-> exists r, In r l /\ key r = Some k.
Proof.
  unfold keys_of. rewrite in_flat_map. split.
  - intros [r [Hr Hk]]. exists r. split; [exact Hr|].
    destruct (key r) as [k'|]; simpl in Hk; [|contradiction].
    destruct Hk as [->|[]]. reflexivity.
  - intros [r [Hr Hk]]. exists r. split; [exact Hr|].
    rewrite Hk. now left.
Qed.

Lemma groupby_sum_index {A} (key : A -> option string) val l :
  map fst (groupby_sum key val l) = unique_keys (keys_of key l).
Proof.
  unfold groupby_sum. rewrite map_map. simpl. apply map_id.
Qed.

(** An entry of a grouped sum: its label is the key of some row, and its
    value is the sum over exactly the rows with that key. *)
Lemma in_groupby_sum {A} (key : A -> option string) val l k v :
  In (k, v) (groupby_sum key val l) <->
  (exists r, In r l /\ key r = Some k) /\
  v = zsum (map val (filter (has_key key k) l)).
Proof.
  unfold groupby_sum. rewrite in_map_iff. split.
  - intros [k' [E Hk]]. injection E as -> <-.
    apply in_unique_keys, in_keys_of in Hk. now split.
  - intros [Hr ->]. exists k. split; [reflexivity|].
    now apply in_unique_keys, in_keys_of.
Qed.

Lemma sort_desc_nil (S : Sorter) {A} (key : A -> Z) : sort_desc S key [] = [].
Proof.
  apply Permutation_nil, sort_desc_perm.
Qed.

Lemma isin_nil x : isin x [] = false.
Proof. reflexivity. Qed.

Lemma filter_none {A} (p : A -> bool) l :
  (forall x, p x = false) -> filter p l = [].
Proof.
  intros H. induction l as [|x l IH]; simpl; [reflexivity|].
  now rewrite H.
Qed.

(** ** C5: no month selected *)

(** C5: with no month selected the filtered set has no row (it is not the
    year-filtered data), and on it all six metrics are 0 and the monthly
    series, the net income series, the hourly histogram and both rankings
    are empty. *)
Theorem no_month_selected (S : Sorter) (year_filtered : DataFrame) :
  let filtered := filter_months year_filtered [] in
  rows filtered = [] /\
  get_kpi_metrics S filtered = mkKPI 0 0 0 0 0 0 /\
  make_bar_trend filtered = [] /\
  make_net_income_chart filtered = [] /\
  fst (make_heatmap S filtered) = [] /\
  make_remarks_chart S filtered true = [] /\
  make_remarks_chart S filtered false = [].
Proof.
  intros filtered.
  assert (Hrows : rows filtered = []).
  { unfold filtered, filter_months, select. cbn [rows].
    apply filter_none. intros r. apply isin_nil. }
  split; [exact Hrows|].
  destruct filtered as [l h]. cbn [rows] in Hrows. subst l.
  repeat split; try reflexivity.
  unfold make_heatmap, value_counts. cbn. apply sort_desc_nil.
Qed.

Example no_month_selected_main :
  option_map (fun d => (rows (filtered_df d), metrics d, net_income d))
             (main stable_sorter example_df [2024] [])
  = Some ([], mkKPI 0 0 0 0 0 0, []).
Proof. reflexivity. Qed.

(** ** C10: a transaction of amount zero *)

Lemma filter_insert_false {A} (p : A -> bool) l1 x l2 :
  p x = false -> filter p (l1 ++ x :: l2) = filter p (l1 ++ l2).
Proof.
  intros H. rewrite !filter_app. simpl. now rewrite H.
Qed.

(** C10: a transaction whose amount is 0 is counted, adds nothing to the
    total of deposits nor to the total of withdrawals, and is in neither of
    the two subsets the remarks rankings are computed from (so neither
    ranking changes). *)
Theorem zero_amount_transaction (S : Sorter) l1 l2 t :
  Transaction_Amount t = 0 ->
  let df := frame (l1 ++ t :: l2) in
  let df0 := frame (l1 ++ l2) in
  count (get_kpi_metrics S df) = count (get_kpi_metrics S df0) + 1 /\
  deposit (get_kpi_metrics S df) = deposit (get_kpi_metrics S df0) /\
  withdrawal (get_kpi_metrics S df) = withdrawal (get_kpi_metrics S df0) /\
  ~ In t (rows (select amount_neg df)) /\
  ~ In t (rows (select amount_pos df)) /\
  (forall is_negative,
      make_remarks_chart S df is_negative
      = make_remarks_chart S df0 is_negative).
Proof.
  intros Ht df df0.
  assert (Hpos : amount_pos t = false) by (unfold amount_pos; rewrite Ht; reflexivity).
  assert (Hneg : amount_neg t = false) by (unfold amount_neg; rewrite Ht; reflexivity).
  assert (Ep : filter amount_pos (l1 ++ t :: l2) = filter amount_pos (l1 ++ l2))
    by now apply filter_insert_false.
  assert (En : filter amount_neg (l1 ++ t :: l2) = filter amount_neg (l1 ++ l2))
    by now apply filter_insert_false.
  assert (Hne : empty df = false)
    by (unfold df, empty, frame; cbn [rows]; now destruct l1).
  unfold get_kpi_metrics. rewrite Hne.
  unfold df, df0, empty, amount_sum, select, frame. cbn [rows Hour option_map].
  cbn [count deposit withdrawal].
  rewrite Ep, En.
  repeat split.
  - destruct (l1 ++ l2) eqn:E; cbn [count].
    + apply app_eq_nil in E. destruct E as [-> ->]. reflexivity.
    + rewrite <- E, !length_app. cbn [List.length]. lia.
  - destruct (l1 ++ l2) eqn:E; cbn [deposit]; reflexivity.
  - destruct (l1 ++ l2) eqn:E; cbn [withdrawal]; reflexivity.
  - rewrite filter_In. intros [_ H]. congruence.
  - rewrite filter_In. intros [_ H]. congruence.
  - intros b. unfold make_remarks_chart, select, empty. cbn [rows].
    destruct b; [rewrite En|rewrite Ep]; reflexivity.
Qed.

Lemma zero_amount_transaction_witness :
  let df := frame ([] ++ memo_row :: rows example_df) in
  let df0 := frame ([] ++ rows example_df) in
  count (get_kpi_metrics stable_sorter df)
  = count (get_kpi_metrics stable_sorter df0) + 1 /\
  deposit (get_kpi_metrics stable_sorter df)
  = deposit (get_kpi_metrics stable_sorter df0) /\
  withdrawal (get_kpi_metrics stable_sorter df)
  = withdrawal (get_kpi_metrics stable_sorter df0) /\
  ~ In memo_row (rows (select amount_neg df)) /\
  ~ In memo_row (rows (select amount_pos df)) /\
  (forall is_negative,
      make_remarks_chart stable_sorter df is_negative
      = make_remarks_chart stable_sorter df0 is_negative).
Proof.
  apply (zero_amount_transaction stable_sorter [] (rows example_df) memo_row).
  reflexivity.
Defined.

Example zero_amount_kpi :
  get_kpi_metrics stable_sorter (frame (memo_row :: rows example_df))
  = mkKPI 100000 40000 60000 3 0 0.
Proof. reflexivity. Qed.

(** ** C4: the latest balance *)

(** The rank [ts_key] orders timestamps chronologically. *)
Lemma ts_key_chronological a b :
  in_range a -> in_range b -> (ts_key a < ts_key b <-> earlier a b).
Proof.
  unfold in_range, earlier, ts_key.
  destruct a as [y1 m1 d1 h1 i1 s1], b as [y2 m2 d2 h2 i2 s2]. cbn.
  intros Ha Hb. lia.
Qed.

Lemma sorted_head_greatest {A} (key : A -> Z) l r l' :
  Permutation l (r :: l') ->
  StronglySorted (fun a b => key b <= key a) (r :: l') ->
  forall x, In x l -> key x <= key r.
Proof.
  intros Hp Hs x Hx.
  apply (Permutation_in _ Hp) in Hx.
  inversion Hs as [|? ? _ Hall]; subst.
  destruct Hx as [<-|Hx]; [lia|].
  rewrite Forall_forall in Hall. now apply Hall.
Qed.

(** C4, as stated, does not hold.  The program sorts with pandas' default
    sort and adds no second key.  On a table of more than 17 rows numpy's
    quicksort partitions, and the median-of-three step of the partition
    takes the last row of the table to the far end of the order; of two
    last rows that share the latest timestamp the second one therefore
    comes out first.  On [chronological_df] the balance shown is that of
    the last row, 60500, not that of the row before it, 61000. *)
Lemma tie_not_decided_by_row_order :
  ~ (forall (S : Sorter) df r,
        latest_row (rows df) = Some r ->
        balance (get_kpi_metrics S df) = Balance r).
Proof.
  intros H.
  specialize (H numpy_sorter chronological_df _ eq_refl).
  vm_compute in H. discriminate H.
Qed.

Example chronological_order :
  nargsort date_key (rows chronological_df) = Some (rev (seq 0 40)).
Proof. vm_compute. reflexivity. Qed.

Example chronological_balance :
  balance (get_kpi_metrics numpy_sorter chronological_df) = 60500 /\
  option_map Balance (latest_row (rows chronological_df)) = Some 61000.
Proof. split; vm_compute; reflexivity. Qed.

(** On the table of two tied rows the first of them is the one shown: a
    segment of at most 17 elements is sorted by insertion. *)
Example tie_two_rows : balance (get_kpi_metrics numpy_sorter tied_df) = 15000.
Proof. vm_compute. reflexivity. Qed.

(** C4, amended: on a non-empty filtered set the latest balance is the
    balance_after of a transaction with the greatest timestamp; when only
    one transaction has that timestamp it is that transaction's. *)
Theorem latest_balance (S : Sorter) (df : DataFrame) :
  rows df <> [] ->
  (exists r, In r (rows df) /\
             balance (get_kpi_metrics S df) = Balance r /\
             forall r', In r' (rows df) -> date_key r' <= date_key r) /\
  (forall r1, In r1 (rows df) ->
              (forall r', In r' (rows df) -> date_key r' <= date_key r1) ->
              (forall r', In r' (rows df) ->
                          date_key r' = date_key r1 -> r' = r1) ->
              balance (get_kpi_metrics S df) = Balance r1).
Proof.
  intros Hne.
  assert (Hex : exists r, In r (rows df) /\
             balance (get_kpi_metrics S df) = Balance r /\
             forall r', In r' (rows df) -> date_key r' <= date_key r).
  { unfold get_kpi_metrics, empty.
    destruct (rows df) as [|r0 l0] eqn:E; [contradiction|].
    cbn [negb balance].
    pose proof (sort_desc_perm S _ date_key (r0 :: l0)) as Hp.
    pose proof (sort_desc_sorted S _ date_key (r0 :: l0)) as Hs.
    destruct (sort_desc S date_key (r0 :: l0)) as [|r l'].
    - apply Permutation_sym, Permutation_nil in Hp. discriminate.
    - exists r. split; [|split].
      + apply (Permutation_in _ (Permutation_sym Hp)). now left.
      + reflexivity.
      + now apply (sorted_head_greatest date_key (r0 :: l0) r l'). }
  split; [exact Hex|].
  destruct Hex as [r [Hr [Hb Hmax]]].
  intros r1 Hr1 Hmax1 Huniq.
  rewrite Hb. f_equal. apply Huniq; [exact Hr|].
  specialize (Hmax r1 Hr1). specialize (Hmax1 r Hr). lia.
Qed.

Lemma latest_balance_witness :
  (exists r, In r (rows example_df) /\
             balance (get_kpi_metrics numpy_sorter example_df) = Balance r /\
             forall r', In r' (rows example_df) -> date_key r' <= date_key r) /\
  (forall r1, In r1 (rows example_df) ->
              (forall r', In r' (rows example_df) -> date_key r' <= date_key r1) ->
              (forall r', In r' (rows example_df) ->
                          date_key r' = date_key r1 -> r' = r1) ->
              balance (get_kpi_metrics numpy_sorter example_df) = Balance r1).
Proof.
  apply (latest_balance numpy_sorter example_df). discriminate.
Defined.


(** With a sort that keeps rows of equal key in table order, the latest
    balance is the one the specification names. *)
Lemma stable_head_latest_row l :
  hd_error (isort_desc date_key true l) = latest_row l.
Proof.
  induction l as [|r l IH]; [reflexivity|].
  cbn [isort_desc fold_right latest_row].
  fold (isort_desc date_key true l). rewrite <- IH.
  destruct (isort_desc date_key true l) as [|y l']; cbn; [reflexivity|].
  now destruct (date_key y <=? date_key r).
Qed.

Lemma stable_latest_balance df r :
  latest_row (rows df) = Some r ->
  balance (get_kpi_metrics stable_sorter df) = Balance r.
Proof.
  rewrite <- stable_head_latest_row.
  unfold get_kpi_metrics, empty.
  destruct (rows df) as [|r0 l0] eqn:E; [discriminate|].
  cbn [negb balance stable_sorter sort_desc].
  destruct (isort_desc date_key true (r0 :: l0)); cbn; congruence.
Qed.

(** ** The top 15 remarks *)

Lemma StronglySorted_firstn {A} (R : A -> A -> Prop) n l :
  StronglySorted R l -> StronglySorted R (firstn n l).
Proof.
  intros H. revert n. induction H as [|x l Hs IH Hall]; intros [|n]; cbn;
    try constructor.
  - apply IH.
  - rewrite Forall_forall in *. intros y Hy. apply Hall.
    rewrite <- (firstn_skipn n l). apply in_or_app. now left.
Qed.

Lemma in_firstn {A} n (l : list A) x : In x (firstn n l) -> In x l.
Proof.
  intros H. rewrite <- (firstn_skipn n l). apply in_or_app. now left.
Qed.

Lemma NoDup_firstn {A} n (l : list A) : NoDup l -> NoDup (firstn n l).
Proof.
  intros H. rewrite <- (firstn_skipn n l) in H.
  now apply NoDup_app_remove_r in H.
Qed.

Lemma series_abs_index s : map fst (series_abs s) = map fst s.
Proof.
  unfold series_abs. rewrite map_map. reflexivity.
Qed.

Lemma in_series_abs k v s :
  In (k, v) (series_abs s) -> exists v0, In (k, v0) s /\ v = Z.abs v0.
Proof.
  unfold series_abs. rewrite in_map_iff.
  intros [[k0 v0] [E H]]. cbn in E. injection E as -> <-. now exists v0.
Qed.

Lemma make_remarks_chart_eq (S : Sorter) df is_negative :
  make_remarks_chart S df is_negative
  = firstn 15 (sort_desc S snd (grouped_remarks df is_negative)).
Proof.
  unfold make_remarks_chart, grouped_remarks, wanted, empty, select.
  destruct is_negative; cbn [rows];
    match goal with
    | |- context [filter ?p ?l] => destruct (filter p l) eqn:E
    end; try reflexivity;
    cbn; now rewrite sort_desc_nil.
Qed.

Example ranking_ties_grouping_order :
  grouped_remarks tied_remarks_df true
  = [("bakery", 3000); ("cinema", 3000)]%string.
Proof. reflexivity. Qed.

Lemma sorted_app_le {A} (key : A -> Z) l1 l2 x y :
  StronglySorted (fun a b => key b <= key a) (l1 ++ l2) ->
  In x l1 -> In y l2 -> key y <= key x.
Proof.
  induction l1 as [|z l1 IH]; intros Hs Hx Hy; [contradiction|].
  cbn [app] in Hs. inversion Hs as [|? ? Hs' Hall]; subst.
  destruct Hx as [<-|Hx]; [|now apply IH].
  rewrite Forall_forall in Hall. apply Hall, in_or_app. now right.
Qed.



(** The grouping key is the string as it stands: two spellings that differ
    in case are two rows. *)
Example ranking_is_case_sensitive :
  make_remarks_chart stable_sorter
    (frame [ tx (mkTs 2024 3 2 8 0 0) "Cafe" "Check Card" (-3000) 97000;
             tx (mkTs 2024 3 3 8 0 0) "cafe" "Check Card" (-4000) 93000;
             tx (mkTs 2024 3 4 8 0 0) "Cafe" "Check Card" (-2000) 91000;
             tx (mkTs 2024 3 5 8 0 0) "refund" "Deposit" 1000 92000 ])
    true
  = [("Cafe", 5000); ("cafe", 4000)]%string.
Proof. reflexivity. Qed.

(** ** C1 and C7: the net income series *)

Lemma lookup_none_iff {V} k (m : list (string * V)) :
  Pd.lookup k m = None <-> ~ In k (map fst m).
Proof.
  induction m as [|[k' v] m IH]; simpl.
  - tauto.
  - destruct (String.eqb k k') eqn:E.
    + apply String.eqb_eq in E. subst. split; [discriminate|tauto].
    + apply String.eqb_neq in E. rewrite IH. split.
      * intros H [H'|H']; [congruence|tauto].
      * tauto.
Qed.

(** What the subtraction of the two monthly series gives in general: a
    month that has deposits but no withdrawal, or withdrawals but no
    deposit, is in the series with a missing value. *)
Lemma net_income_one_sided (df : DataFrame) k :
  (In k (map fst (monthly_income df)) /\
   ~ In k (map fst (monthly_expense df))) \/
  (~ In k (map fst (monthly_income df)) /\
   In k (map fst (monthly_expense df))) ->
  In (k, None) (make_net_income_chart df).
Proof.
  intros H. unfold make_net_income_chart, series_sub.
  apply in_map_iff. exists k. split.
  - f_equal.
    destruct H as [[_ H]|[H _]]; apply lookup_none_iff in H; rewrite H;
      [now destruct (Pd.lookup k (monthly_income df))|reflexivity].
  - unfold union_index. apply in_unique_keys, in_or_app. tauto.
Qed.

Lemma lookup_tabulate {V} (f : string -> V) ks k :
  In k ks -> Pd.lookup k (map (fun k => (k, f k)) ks) = Some (f k).
Proof.
  induction ks as [|k0 ks IH]; intros H; [contradiction|].
  cbn [map Pd.lookup].
  destruct (String.eqb k k0) eqn:E.
  - apply String.eqb_eq in E. now subst.
  - apply String.eqb_neq in E. destruct H as [H|H]; [congruence|now apply IH].
Qed.

Lemma lookup_series_abs k s :
  Pd.lookup k (series_abs s) = option_map Z.abs (Pd.lookup k s).
Proof.
  unfold series_abs. induction s as [|[k0 v] s IH]; [reflexivity|].
  cbn [map fst snd Pd.lookup]. now destruct (String.eqb k k0).
Qed.

(** A month that has both deposits and withdrawals gets income - expense. *)
Lemma net_income_both_sides (df : DataFrame) k :
  In k (map fst (monthly_income df)) ->
  In k (map fst (monthly_expense df)) ->
  In (k, Some (income_of df k - expense_of df k)) (make_net_income_chart df).
Proof.
  intros Hi He. unfold make_net_income_chart, series_sub.
  apply in_map_iff. exists k. split.
  - f_equal. unfold monthly_expense in *.
    rewrite lookup_series_abs.
    rewrite series_abs_index in He.
    unfold monthly_income in *. rewrite groupby_sum_index in Hi, He.
    unfold groupby_sum at 1 2.
    rewrite !lookup_tabulate by assumption. reflexivity.
  - unfold union_index. apply in_unique_keys, in_or_app. now left.
Qed.

Ltac zsum_lia := unfold zsum in *; cbn [fold_right map] in *; lia.

Lemma zsum_perm l l' : Permutation l l' -> zsum l = zsum l'.
Proof.
  induction 1; zsum_lia.
Qed.

Lemma zsum_map_add {A} (f g : A -> Z) l :
  zsum (map (fun x => f x + g x) l) = zsum (map f l) + zsum (map g l).
Proof.
  induction l as [|x l IH]; zsum_lia.
Qed.

Lemma zsum_map_zero {A} (l : list A) : zsum (map (fun _ => 0) l) = 0.
Proof.
  induction l as [|x l IH]; zsum_lia.
Qed.

Lemma zsum_map_opp {A} (f : A -> Z) l :
  zsum (map (fun x => - f x) l) = - zsum (map f l).
Proof.
  induction l as [|x l IH]; zsum_lia.
Qed.

Lemma zsum_indicator ks k0 v :
  NoDup ks -> In k0 ks ->
  zsum (map (fun k => if String.eqb k k0 then v else 0) ks) = v.
Proof.
  induction 1 as [|k ks Hk Hnd IH]; intros Hin; [contradiction|].
  cbn [map zsum fold_right]. fold (zsum (map (fun k => if String.eqb k k0 then v else 0) ks)).
  destruct Hin as [->|Hin].
  - rewrite String.eqb_refl.
    rewrite (map_ext_in _ (fun _ => 0)), zsum_map_zero; [lia|].
    intros k Hk'. destruct (String.eqb k k0) eqn:E; [|reflexivity].
    apply String.eqb_eq in E. congruence.
  - rewrite IH by assumption.
    destruct (String.eqb k k0) eqn:E; [|lia].
    apply String.eqb_eq in E. congruence.
Qed.

(** The sums of the groups add up to the sum over all rows. *)
Lemma group_sums_total {A} (key : A -> option string) (val : A -> Z) ks l :
  NoDup ks ->
  (forall r, In r l -> exists k, key r = Some k /\ In k ks) ->
  zsum (map (fun k => zsum (map val (filter (has_key key k) l))) ks)
  = zsum (map val l).
Proof.
  intros Hnd. induction l as [|r l IH]; intros Hall.
  - cbn. apply zsum_map_zero.
  - destruct (Hall r (or_introl eq_refl)) as [k0 [Hk0 Hin]].
    rewrite (map_ext _
      (fun k => (if String.eqb k k0 then val r else 0)
                + zsum (map val (filter (has_key key k) l)))).
    + rewrite zsum_map_add, zsum_indicator by assumption.
      rewrite IH by (intros r' Hr'; apply Hall; now right).
      reflexivity.
    + intros k. cbn [filter]. unfold has_key at 1. rewrite Hk0.
      destruct (String.eqb k k0); reflexivity.
Qed.

Lemma groupby_sum_total {A} (key : A -> option string) (val : A -> Z) l :
  (forall r, In r l -> key r <> None) ->
  zsum (map snd (groupby_sum key val l)) = zsum (map val l).
Proof.
  intros Hkey. unfold groupby_sum. rewrite map_map. cbn [snd].
  apply group_sums_total; [apply unique_keys_nodup|].
  intros r Hr. destruct (key r) as [k|] eqn:E.
  - exists k. split; [reflexivity|].
    apply in_unique_keys, in_keys_of. now exists r.
  - now apply Hkey in Hr.
Qed.

Lemma zsum_map_sub {A} (f g : A -> Z) l :
  zsum (map (fun x => f x - g x) l) = zsum (map f l) - zsum (map g l).
Proof.
  induction l as [|x l IH]; zsum_lia.
Qed.

Lemma negative_sum_nonpos l :
  (forall r, In r l -> amount_neg r = true) ->
  zsum (map Transaction_Amount l) <= 0.
Proof.
  induction l as [|r l IH]; intros H; [cbn; lia|].
  assert (amount_neg r = true) by (apply H; now left).
  assert (zsum (map Transaction_Amount l) <= 0)
    by (apply IH; intros; apply H; now right).
  unfold amount_neg in *. zsum_lia.
Qed.

Lemma kpi_totals (S : Sorter) df :
  deposit (get_kpi_metrics S df)
  = zsum (map Transaction_Amount (filter amount_pos (rows df))) /\
  withdrawal (get_kpi_metrics S df)
  = - zsum (map Transaction_Amount (filter amount_neg (rows df))).
Proof.
  pose proof (negative_sum_nonpos (filter amount_neg (rows df))) as H.
  unfold get_kpi_metrics, empty, amount_sum, select.
  destruct (rows df) as [|r l] eqn:E; cbn [rows deposit withdrawal].
  - split; reflexivity.
  - split; [reflexivity|].
    assert (zsum (map Transaction_Amount (filter amount_neg (r :: l))) <= 0)
      by (apply H; intros x Hx; now apply filter_In in Hx).
    lia.
Qed.

(** Where no month is one-sided, total deposits minus total withdrawals is
    the sum of the net income series. *)
Lemma kpi_net_income_two_sided (S : Sorter) df :
  (forall k, In k (map fst (monthly_income df)) <->
             In k (map fst (monthly_expense df))) ->
  deposit (get_kpi_metrics S df) - withdrawal (get_kpi_metrics S df)
  = sum_skipna (map snd (make_net_income_chart df)).
Proof.
  intros Hboth. destruct (kpi_totals S df) as [-> ->].
  unfold make_net_income_chart, series_sub, sum_skipna.
  rewrite !map_map. cbn [snd].
  assert (Hi : map fst (monthly_income df)
               = unique_keys (keys_of month_key (filter amount_pos (rows df))))
    by apply groupby_sum_index.
  assert (He : map fst (monthly_expense df)
               = unique_keys (keys_of month_key (filter amount_neg (rows df))))
    by (unfold monthly_expense; rewrite series_abs_index;
        apply groupby_sum_index).
  assert (HU : forall k, In k (union_index (monthly_income df)
                                           (monthly_expense df)) <->
                         In k (map fst (monthly_income df))).
  { intros k. unfold union_index. rewrite in_unique_keys, in_app_iff.
    rewrite <- Hboth. tauto. }
  rewrite (map_ext_in _ (fun k => income_of df k - expense_of df k)).
  2:{ intros k Hk. apply HU in Hk.
      assert (Hk' := proj1 (Hboth k) Hk).
      unfold monthly_expense. rewrite lookup_series_abs.
      unfold monthly_income, groupby_sum.
      rewrite Hi in Hk. rewrite He in Hk'.
      rewrite !lookup_tabulate by assumption. reflexivity. }
  rewrite zsum_map_sub.
  assert (Pi : Permutation (union_index (monthly_income df) (monthly_expense df))
                           (map fst (monthly_income df))).
  { apply NoDup_Permutation; [apply unique_keys_nodup| |exact HU].
    rewrite Hi. apply unique_keys_nodup. }
  assert (Pe : Permutation (union_index (monthly_income df) (monthly_expense df))
                           (map fst (monthly_expense df))).
  { apply NoDup_Permutation; [apply unique_keys_nodup| |].
    - rewrite He. apply unique_keys_nodup.
    - intros k. rewrite HU. apply Hboth. }
  rewrite (zsum_perm _ _ (Permutation_map (income_of df) Pi)).
  rewrite (zsum_perm _ _ (Permutation_map (expense_of df) Pe)).
  rewrite Hi, He. unfold income_of, expense_of.
  rewrite group_sums_total.
  2: apply unique_keys_nodup.
  2:{ intros r Hr. exists (month_str (Date r)). split; [reflexivity|].
      apply in_unique_keys, in_keys_of. now exists r. }
  rewrite (map_ext _ (fun k => - zsum (map Transaction_Amount
             (filter (has_key month_key k) (filter amount_neg (rows df)))))).
  2:{ intros k.
      assert (zsum (map Transaction_Amount
                (filter (has_key month_key k) (filter amount_neg (rows df))))
              <= 0); [|lia].
      apply negative_sum_nonpos. intros r Hr.
      apply filter_In in Hr. destruct Hr as [Hr _].
      now apply filter_In in Hr. }
  rewrite zsum_map_opp.
  rewrite group_sums_total; [reflexivity|apply unique_keys_nodup|].
  intros r Hr. exists (month_str (Date r)). split; [reflexivity|].
  apply in_unique_keys, in_keys_of. now exists r.
Qed.

(** C1, on the example of the specification: the program's net income
    series holds a missing value for both months, where the claim has
    100000 and -40000.  Each month has one side only, and the subtraction of
    the two series does not treat the absent side as 0 (the monthly
    income/expense series of [make_bar_trend] does, with fillna(0)). *)
Theorem net_income_example :
  make_net_income_chart example_df
  = [("2024-01", None); ("2024-02", None)]%string.
Proof. reflexivity. Qed.

Example net_income_two_sided :
  make_net_income_chart
    (frame [ tx (mkTs 2024 1 10 9 0 0) "salary" "Deposit" 100000 100000;
             tx (mkTs 2024 1 12 9 0 0) "rent" "Withdrawal" (-40000) 60000;
             tx (mkTs 2024 2 5 18 30 0) "lunch" "Check Card" (-9000) 51000 ])
  = [("2024-01", Some 60000); ("2024-02", None)]%string.
Proof. reflexivity. Qed.

(** C7, on the same example: total deposits minus total withdrawals is
    60000, while the net income series, both of whose values are missing,
    sums to 0. *)
Theorem kpi_net_income_example :
  deposit (get_kpi_metrics stable_sorter example_df)
  - withdrawal (get_kpi_metrics stable_sorter example_df) = 60000 /\
  sum_skipna (map snd (make_net_income_chart example_df)) = 0.
Proof. split; reflexivity. Qed.

(** ** C9: what the aggregations leave behind *)


Example make_heatmap_hour_column :
  Hour (snd (make_heatmap stable_sorter example_df)) = Some [9; 18].
Proof. reflexivity. Qed.

Lemma make_remarks_chart_rows (S : Sorter) df df' b :
  rows df = rows df' ->
  make_remarks_chart S df b = make_remarks_chart S df' b.
Proof.
  intros H. rewrite !make_remarks_chart_eq.
  unfold grouped_remarks. now rewrite H.
Qed.

Lemma nth_past {A} (h : list A) x t d : nth (List.length h) (h ++ x :: t) d = x.
Proof. induction h as [|y h IH]; [reflexivity|exact IH]. Qed.

Lemma nth_past_one {A} (h : list A) x y t d :
  nth (Datatypes.S (List.length h)) (h ++ x :: y :: t) d = y.
Proof. induction h as [|z h IH]; [reflexivity|exact IH]. Qed.

Lemma nth_before {A} (h t : list A) a d :
  (a < List.length h)%nat -> nth a (h ++ t) d = nth a h d.
Proof. intros H. now apply app_nth1. Qed.

Lemma update_past_one {A} (f : A -> A) (h : list A) x y :
  update (Datatypes.S (List.length h)) f (h ++ [x; y]) = h ++ [x; f y].
Proof.
  induction h as [|z h IH]; [reflexivity|].
  cbn [List.length app update]. now rewrite IH.
Qed.

Lemma update_length {A} (f : A -> A) i (h : list A) :
  List.length (update i f h) = List.length h.
Proof.
  revert i. induction h as [|x h IH]; intros [|i]; cbn; try reflexivity.
  now rewrite IH.
Qed.

Lemma nth_update {A} (f : A -> A) i a (h : list A) d :
  nth a (update i f h) d
  = if (a =? i)%nat && (i <? List.length h)%nat then f (nth a h d)
    else nth a h d.
Proof.
  revert i a. induction h as [|x h IH]; intros [|i] [|a]; cbn;
    rewrite ?andb_false_r; try reflexivity.
  rewrite IH. reflexivity.
Qed.



(** A column [Hour] that the frame came with is overwritten. *)
Example make_heatmap_overwrites_hour :
  make_heatmap_proc stable_sorter 0 [hour_column_df]
  = ([(9, 1); (18, 1)], [{| rows := rows example_df; Hour := Some [9; 18] |}]).
Proof. reflexivity. Qed.

(** * Further properties of the normaliser *)

Lemma has_setitem k l v (df : Frame) :
  has k (Pd.setitem l v df) = has k df || String.eqb k l.
Proof.
  rewrite !has_as_lookup.
  destruct (String.eqb k l) eqn:E.
  - apply String.eqb_eq in E. subst. rewrite lookup_setitem_same.
    now rewrite orb_true_r.
  - rewrite lookup_setitem_other by exact E. now rewrite orb_false_r.
Qed.

Lemma has_pruned k ls (df : Frame) :
  has k (filter (fun c => negb (Pd.mem (fst c) ls)) df)
  = has k df && negb (Pd.mem k ls).
Proof.
  unfold has, Pd.labels, Pd.mem at 1 3.
  induction df as [|[k' w] df IH]; [reflexivity|].
  cbn [filter fst map existsb].
  destruct (String.eqb k k') eqn:E.
  - apply String.eqb_eq in E. subst k'.
    destruct (Pd.mem k ls) eqn:M; cbn [negb].
    + rewrite IH. now rewrite andb_false_r.
    + cbn [map fst existsb]. now rewrite String.eqb_refl.
  - destruct (negb (Pd.mem k' ls)); cbn [map fst existsb orb];
      [rewrite E|]; exact IH.
Qed.

(** What a successful [load_and_clean_data] has gone through. *)
Lemma load_ok_inv L raw df :
  load_and_clean_data L (Some raw) = Ok (Some df) ->
  let df1 := Pd.rename COLUMN_NAMES raw in
  let df2 := filter (fun c => negb (Pd.mem (fst c) DROPPED)) df1 in
  exists acc accs ty d ds,
    Pd.lookup "Account_Number" df1 = Some acc /\
    Pd.convert (astype_int L) (Pd.fillna (Num 0) acc) = Ok accs /\
    Pd.lookup "Transaction_Type" df1 = Some ty /\
    Pd.lookup "Date" df1 = Some d /\
    Pd.convert (to_datetime L) d = Ok ds /\
    df = Pd.setitem "Month" (map dt_month ds)
           (Pd.setitem "DateOnly" (map dt_date ds)
              (Pd.setitem "Time" (map dt_time ds)
                 (Pd.setitem "Date" (map dt_cell ds)
                    (Pd.setitem "Transaction_Type" (Pd.replace TYPE_NAMES ty)
                       (Pd.setitem "Account_Number" (map Num accs) df2))))).
Proof.
  intros H df1 df2. revert H. unfold load_and_clean_data.
  fold df1. rewrite drop_dropped.
  destruct (has "Unnamed: 0" df1); cbn [negb bind];
    [|destruct (has "Memo" df1); discriminate].
  destruct (has "Memo" df1); cbn [negb bind]; [|discriminate].
  fold df2.
  unfold Pd.getitem at 1. unfold df2 at 1. rewrite lookup_pruned by reflexivity.
  destruct (Pd.lookup "Account_Number" df1) as [acc|]; cbn [bind];
    [|discriminate].
  destruct (Pd.convert (astype_int L) _) as [accs|e] eqn:Ea; cbn [bind];
    [|discriminate].
  unfold Pd.getitem at 1.
  rewrite lookup_setitem_other by reflexivity.
  unfold df2 at 1. rewrite lookup_pruned by reflexivity.
  destruct (Pd.lookup "Transaction_Type" df1) as [ty|]; cbn [bind];
    [|discriminate].
  unfold Pd.getitem at 1.
  rewrite !lookup_setitem_other by reflexivity.
  unfold df2 at 1. rewrite lookup_pruned by reflexivity.
  destruct (Pd.lookup "Date" df1) as [d|]; cbn [bind]; [|discriminate].
  destruct (Pd.convert (to_datetime L) d) as [ds|e] eqn:Ed; cbn [bind];
    [|discriminate].
  intros H. injection H as <-.
  exists acc, accs, ty, d, ds. repeat split; assumption || reflexivity.
Qed.

Lemma convert_nth {B} (f : cell -> option B) s bs :
  Pd.convert f s = Ok bs ->
  forall i c, nth_error s i = Some c ->
              exists b, f c = Some b /\ nth_error bs i = Some b.
Proof.
  revert bs. induction s as [|c0 s IH]; intros bs H i c Hi.
  - destruct i; discriminate.
  - cbn [Pd.convert] in H. destruct (f c0) as [b0|] eqn:E0; [|discriminate].
    destruct (Pd.convert f s) as [bs'|e]; cbn [bind] in H; [|discriminate].
    injection H as <-. destruct i as [|i]; cbn [nth_error] in *.
    + injection Hi as <-. now exists b0.
    + now apply IH.
Qed.

(** X1: when normalisation stops with a [KeyError], the error names at
    least one label, and every label it names is one of the five the
    function looks up and is absent from the renamed table. *)
Theorem key_error_names_absent_labels L raw ls :
  load_and_clean_data L (Some raw) = Raise (KeyError ls) ->
  ls <> [] /\
  Forall (fun l => In l LOOKED_UP /\
                   has l (Pd.rename COLUMN_NAMES raw) = false) ls.
Proof.
  unfold load_and_clean_data, LOOKED_UP.
  set (df1 := Pd.rename COLUMN_NAMES raw).
  rewrite drop_dropped.
  destruct (has "Unnamed: 0" df1) eqn:HU; cbn [negb bind];
    [|destruct (has "Memo" df1) eqn:HM; cbn [negb bind];
      intros H; injection H as <-; (split; [discriminate|]);
      unfold DROPPED; repeat constructor; cbn [In]; tauto].
  destruct (has "Memo" df1) eqn:HM; cbn [negb bind];
    [|intros H; injection H as <-; (split; [discriminate|]);
      repeat constructor; cbn [In]; tauto].
  unfold Pd.getitem at 1. rewrite lookup_pruned by reflexivity.
  pose proof (lookup_has "Account_Number" df1) as Ha.
  destruct (Pd.lookup "Account_Number" df1) as [acc|]; cbn [bind];
    [|intros H; injection H as <-; (split; [discriminate|]);
      repeat constructor; cbn [In]; tauto].
  destruct (Pd.convert (astype_int L) _) as [accs|e] eqn:Ea; cbn [bind].
  2:{ apply convert_raises in Ea. subst. discriminate. }
  unfold Pd.getitem at 1.
  rewrite lookup_setitem_other by reflexivity.
  rewrite lookup_pruned by reflexivity.
  pose proof (lookup_has "Transaction_Type" df1) as Ht.
  destruct (Pd.lookup "Transaction_Type" df1) as [ty|]; cbn [bind];
    [|intros H; injection H as <-; (split; [discriminate|]);
      repeat constructor; cbn [In]; tauto].
  unfold Pd.getitem at 1.
  rewrite !lookup_setitem_other by reflexivity.
  rewrite lookup_pruned by reflexivity.
  pose proof (lookup_has "Date" df1) as Hd.
  destruct (Pd.lookup "Date" df1) as [d|]; cbn [bind];
    [|intros H; injection H as <-; (split; [discriminate|]);
      repeat constructor; cbn [In]; tauto].
  destruct (Pd.convert (to_datetime L) d) as [ds|e] eqn:Ed; cbn [bind];
    [discriminate|].
  apply convert_raises in Ed. subst. discriminate.
Qed.

Lemma key_error_names_absent_labels_witness :
  ["Memo"%string] <> [] /\
  Forall (fun l => In l LOOKED_UP /\
                   has l (Pd.rename COLUMN_NAMES (without "메모" sample_raw))
                   = false) ["Memo"%string].
Proof.
  apply (key_error_names_absent_labels plain (without "메모" sample_raw)).
  reflexivity.
Defined.

(** X2: after a successful normalisation every cell of the Account_Number
    column is an integer, never a missing value; a cell that is empty in
    the export holds the integer that [astype(int)] gives for the filled-in
    0. *)
Theorem account_numbers_are_integers L raw df col :
  load_and_clean_data L (Some raw) = Ok (Some df) ->
  Pd.getitem "Account_Number" df = Ok col ->
  Forall (fun c => exists z, c = Num z) col /\
  forall acc i,
    Pd.getitem "Account_Number" (Pd.rename COLUMN_NAMES raw) = Ok acc ->
    nth_error acc i = Some NaN ->
    exists z, astype_int L (Num 0) = Some z /\ nth_error col i = Some (Num z).
Proof.
  intros Hload Hcol.
  destruct (load_ok_inv L raw df Hload)
    as (acc & accs & ty & d & ds & Hacc & Haccs & _ & _ & _ & ->).
  unfold Pd.getitem in Hcol.
  rewrite !lookup_setitem_other in Hcol by reflexivity.
  rewrite lookup_setitem_same in Hcol. injection Hcol as <-.
  split.
  - apply Forall_forall. intros c Hc. apply in_map_iff in Hc.
    destruct Hc as [z [<- _]]. now exists z.
  - intros acc' i Hacc' Hi. unfold Pd.getitem in Hacc'.
    rewrite Hacc in Hacc'. injection Hacc' as <-.
    assert (Hf : nth_error (Pd.fillna (Num 0) acc) i = Some (Num 0))
      by (unfold Pd.fillna; now rewrite nth_error_map, Hi).
    destruct (convert_nth _ _ _ Haccs i _ Hf) as [z [Hz Hn]].
    exists z. split; [exact Hz|]. now rewrite nth_error_map, Hn.
Qed.

Lemma account_numbers_are_integers_witness :
  Forall (fun c => exists z, c = Num z) [Num 0; Num 1234] /\
  forall acc i,
    Pd.getitem "Account_Number" (Pd.rename COLUMN_NAMES sample_raw) = Ok acc ->
    nth_error acc i = Some NaN ->
    exists z, astype_int plain (Num 0) = Some z /\
              nth_error [Num 0; Num 1234] i = Some (Num z).
Proof.
  apply (account_numbers_are_integers plain sample_raw sample_clean);
    reflexivity.
Defined.

(** X3: the Time, DateOnly and Month columns of the result are computed
    from the parsed timestamp of the same row: where the Date column holds
    the timestamp [t], they hold its time of day, its calendar date and its
    month key YYYY-MM, whatever the export had under those labels. *)
Theorem derived_columns_follow_date L raw df dates i t :
  load_and_clean_data L (Some raw) = Ok (Some df) ->
  Pd.getitem "Date" df = Ok dates ->
  nth_error dates i = Some (Stamp t) ->
  exists times days months,
    Pd.getitem "Time" df = Ok times /\
    Pd.getitem "DateOnly" df = Ok days /\
    Pd.getitem "Month" df = Ok months /\
    nth_error times i = Some (TimeV (hour t) (minute t) (second t)) /\
    nth_error days i = Some (DateV (year t) (month t) (day t)) /\
    nth_error months i = Some (Str (month_str t)).
Proof.
  intros Hload Hdates Hi.
  destruct (load_ok_inv L raw df Hload)
    as (acc & accs & ty & d & ds & _ & _ & _ & _ & _ & ->).
  unfold Pd.getitem in *.
  rewrite !lookup_setitem_other in Hdates by reflexivity.
  rewrite lookup_setitem_same in Hdates. injection Hdates as <-.
  rewrite nth_error_map in Hi.
  destruct (nth_error ds i) as [[t'|]|] eqn:E; try discriminate.
  injection Hi as ->.
  exists (map dt_time ds), (map dt_date ds), (map dt_month ds).
  rewrite lookup_setitem_same.
  rewrite !(lookup_setitem_other "DateOnly") by reflexivity.
  rewrite lookup_setitem_same.
  rewrite !(lookup_setitem_other "Time") by reflexivity.
  rewrite lookup_setitem_same.
  rewrite !nth_error_map, E. repeat split; reflexivity.
Qed.

Lemma derived_columns_follow_date_witness :
  exists times days months,
    Pd.getitem "Time" sample_clean = Ok times /\
    Pd.getitem "DateOnly" sample_clean = Ok days /\
    Pd.getitem "Month" sample_clean = Ok months /\
    nth_error times 1 = Some (TimeV 21 5 10) /\
    nth_error days 1 = Some (DateV 2024 2 3) /\
    nth_error months 1 = Some (Str (month_str (mkTs 2024 2 3 21 5 10))).
Proof.
  apply (derived_columns_follow_date plain sample_raw sample_clean
           [Stamp (mkTs 2024 1 15 9 30 0); Stamp (mkTs 2024 2 3 21 5 10)]
           1%nat (mkTs 2024 2 3 21 5 10)); reflexivity.
Defined.

(** X4: the table a successful normalisation returns never has the index
    column or the memo column, and always has the columns Date,
    Account_Number, Transaction_Type, Time, DateOnly and Month. *)
Theorem normalised_columns L raw df :
  load_and_clean_data L (Some raw) = Ok (Some df) ->
  has "Unnamed: 0" df = false /\
  has "Memo" df = false /\
  forallb (fun l => has l df) PRODUCED = true.
Proof.
  intros Hload.
  destruct (load_ok_inv L raw df Hload)
    as (acc & accs & ty & d & ds & _ & _ & _ & _ & _ & ->).
  unfold PRODUCED. cbn [forallb].
  rewrite !has_setitem, !has_pruned. cbn.
  repeat match goal with
         | |- context [has ?l (Pd.rename COLUMN_NAMES raw)] =>
             destruct (has l (Pd.rename COLUMN_NAMES raw))
         end; repeat split; reflexivity.
Qed.

Lemma normalised_columns_witness :
  has "Unnamed: 0" sample_clean = false /\
  has "Memo" sample_clean = false /\
  forallb (fun l => has l sample_clean) PRODUCED = true.
Proof.
  apply (normalised_columns plain sample_raw sample_clean). reflexivity.
Defined.

(** X5: every other column of the renamed table (remarks, bank name,
    amount, balance, and any column the export has besides) comes out cell
    for cell as it went in: the normaliser neither converts nor checks
    it. *)
Theorem other_columns_pass_through L raw df k :
  load_and_clean_data L (Some raw) = Ok (Some df) ->
  Pd.mem k (DROPPED ++ PRODUCED) = false ->
  Pd.lookup k df = Pd.lookup k (Pd.rename COLUMN_NAMES raw).
Proof.
  intros Hload Hk.
  destruct (load_ok_inv L raw df Hload)
    as (acc & accs & ty & d & ds & _ & _ & _ & _ & _ & ->).
  unfold Pd.mem, DROPPED, PRODUCED in Hk. cbn [app existsb] in Hk.
  repeat (apply orb_false_elim in Hk; destruct Hk as [? Hk]).
  rewrite !lookup_setitem_other by assumption.
  apply lookup_pruned. unfold Pd.mem, DROPPED. cbn [existsb].
  repeat (apply orb_false_intro; [assumption|]). reflexivity.
Qed.

Lemma other_columns_pass_through_witness :
  Pd.lookup "Transaction_Amount" sample_clean
  = Pd.lookup "Transaction_Amount" (Pd.rename COLUMN_NAMES sample_raw).
Proof.
  apply (other_columns_pass_through plain sample_raw sample_clean);
    reflexivity.
Defined.

Lemma convert_length {B} (f : cell -> option B) s bs :
  Pd.convert f s = Ok bs -> List.length bs = List.length s.
Proof.
  revert bs. induction s as [|c s IH]; intros bs H.
  - injection H as <-. reflexivity.
  - cbn [Pd.convert] in H. destruct (f c); [|discriminate].
    destruct (Pd.convert f s) as [bs'|e]; cbn [bind] in H; [|discriminate].
    injection H as <-. cbn [List.length]. f_equal. now apply IH.
Qed.

(** X6: normalisation drops no row: in the table it returns, the columns
    Account_Number, Transaction_Type, Date, Time, DateOnly and Month have
    as many cells as the column of the export they are computed from. *)
Theorem normalisation_keeps_every_row L raw df acc ty d :
  load_and_clean_data L (Some raw) = Ok (Some df) ->
  Pd.getitem "Account_Number" (Pd.rename COLUMN_NAMES raw) = Ok acc ->
  Pd.getitem "Transaction_Type" (Pd.rename COLUMN_NAMES raw) = Ok ty ->
  Pd.getitem "Date" (Pd.rename COLUMN_NAMES raw) = Ok d ->
  option_map (@List.length cell) (Pd.lookup "Account_Number" df)
  = Some (List.length acc) /\
  option_map (@List.length cell) (Pd.lookup "Transaction_Type" df)
  = Some (List.length ty) /\
  Forall (fun l => option_map (@List.length cell) (Pd.lookup l df)
                   = Some (List.length d))
         ["Date"; "Time"; "DateOnly"; "Month"]%string.
Proof.
  intros Hload Hacc Hty Hd.
  destruct (load_ok_inv L raw df Hload)
    as (acc' & accs & ty' & d' & ds & Ha & Haccs & Ht & Hdd & Hds & ->).
  unfold Pd.getitem in Hacc, Hty, Hd.
  rewrite Ha in Hacc. rewrite Ht in Hty. rewrite Hdd in Hd.
  injection Hacc as <-. injection Hty as <-. injection Hd as <-.
  apply convert_length in Haccs, Hds.
  unfold Pd.fillna in Haccs. rewrite length_map in Haccs.
  split; [|split].
  - rewrite !lookup_setitem_other by reflexivity.
    rewrite lookup_setitem_same. cbn [option_map].
    now rewrite length_map, Haccs.
  - rewrite !lookup_setitem_other by reflexivity.
    rewrite lookup_setitem_same. cbn [option_map].
    unfold Pd.replace. now rewrite length_map.
  - repeat constructor;
      rewrite ?lookup_setitem_same;
      rewrite ?(lookup_setitem_other "Date") by reflexivity;
      rewrite ?(lookup_setitem_other "Time") by reflexivity;
      rewrite ?(lookup_setitem_other "DateOnly") by reflexivity;
      rewrite ?lookup_setitem_same; cbn [option_map];
      now rewrite length_map, Hds.
Qed.

Lemma normalisation_keeps_every_row_witness :
  option_map (@List.length cell) (Pd.lookup "Account_Number" sample_clean)
  = Some (List.length [NaN; Num 1234]) /\
  option_map (@List.length cell) (Pd.lookup "Transaction_Type" sample_clean)
  = Some (List.length [Str "체크카드결제"; Str "해외결제"]) /\
  Forall (fun l => option_map (@List.length cell) (Pd.lookup l sample_clean)
                   = Some (List.length [Str "2024.01.15 09:30:00";
                                        Str "2024.02.03 21:05:10"]))
         ["Date"; "Time"; "DateOnly"; "Month"]%string.
Proof.
  apply (normalisation_keeps_every_row plain sample_raw sample_clean);
    reflexivity.
Defined.

Lemma load_some L raw :
  load_and_clean_data L (Some raw) <> Ok None.
Proof.
  unfold load_and_clean_data.
  destruct (Pd.drop DROPPED _); cbn [bind]; [|discriminate].
  destruct (Pd.getitem "Account_Number" _); cbn [bind]; [|discriminate].
  destruct (Pd.convert (astype_int L) _); cbn [bind]; [|discriminate].
  destruct (Pd.getitem "Transaction_Type" _); cbn [bind]; [|discriminate].
  destruct (Pd.getitem "Date" _); cbn [bind]; [|discriminate].
  destruct (Pd.convert (to_datetime L) _); cbn [bind]; discriminate.
Qed.

(** X7: normalisation is all or nothing: a single timestamp that
    [to_datetime] refuses, or a single account number that [astype(int)]
    refuses once the empty cells are filled with 0, makes the call raise
    for the whole file; no table with the other rows is returned. *)
Theorem one_bad_cell_refuses_the_file L raw c :
  (exists d, Pd.getitem "Date" (Pd.rename COLUMN_NAMES raw) = Ok d /\
             In c d /\ to_datetime L c = None) \/
  (exists acc, Pd.getitem "Account_Number" (Pd.rename COLUMN_NAMES raw) = Ok acc /\
               In c (Pd.fillna (Num 0) acc) /\ astype_int L c = None) ->
  exists e, load_and_clean_data L (Some raw) = Raise e.
Proof.
  intros H.
  destruct (load_and_clean_data L (Some raw)) as [[df|]|e] eqn:E;
    [|now apply load_some in E|now exists e].
  exfalso.
  destruct (load_ok_inv L raw df E)
    as (acc' & accs & ty' & d' & ds & Ha & Haccs & _ & Hdd & Hds & _).
  unfold Pd.getitem in H.
  destruct H as [(d & Hd & Hin & Hc)|(acc & Hacc & Hin & Hc)].
  - rewrite Hdd in Hd. injection Hd as <-.
    apply In_nth_error in Hin. destruct Hin as [i Hi].
    destruct (convert_nth _ _ _ Hds i c Hi) as [b [Hb _]]. congruence.
  - rewrite Ha in Hacc. injection Hacc as <-.
    apply In_nth_error in Hin. destruct Hin as [i Hi].
    destruct (convert_nth _ _ _ Haccs i c Hi) as [b [Hb _]]. congruence.
Qed.

Lemma one_bad_cell_refuses_the_file_witness :
  exists e, load_and_clean_data plain (Some sample_bad_date) = Raise e.
Proof.
  apply (one_bad_cell_refuses_the_file plain sample_bad_date
           (Str "2024/02/03 21:05")).
  left. exists [Str "2024.01.15 09:30:00"; Str "2024/02/03 21:05"].
  split; [reflexivity|]. split; [right; left; reflexivity|reflexivity].
Defined.

Example bad_date_error :
  load_and_clean_data plain (Some sample_bad_date) = Raise ValueError.
Proof. reflexivity. Qed.

(** * Further properties of the aggregator *)

Lemma signed_sum_split l :
  zsum (map Transaction_Amount (filter amount_pos l))
  + zsum (map Transaction_Amount (filter amount_neg l))
  = zsum (map Transaction_Amount l).
Proof.
  induction l as [|r l IH]; [reflexivity|].
  cbn [filter]. unfold amount_pos at 1, amount_neg at 1.
  destruct (0 <? Transaction_Amount r) eqn:Ep;
    destruct (Transaction_Amount r <? 0) eqn:En; zsum_lia.
Qed.

Lemma positive_sum_nonneg l :
  0 <= zsum (map Transaction_Amount (filter amount_pos l)).
Proof.
  induction l as [|r l IH]; [cbn; lia|].
  cbn [filter]. unfold amount_pos at 1.
  destruct (0 <? Transaction_Amount r) eqn:Ep; zsum_lia.
Qed.

Lemma wrap64_small z : - 2 ^ 63 <= z < 2 ^ 63 -> wrap64 z = z.
Proof.
  intros H. unfold wrap64. rewrite Z.mod_small; lia.
Qed.

Lemma wrap64_add z x : wrap64 (wrap64 z + x) = wrap64 (z + x).
Proof.
  unfold wrap64.
  replace ((z + 2 ^ 63) mod 2 ^ 64 - 2 ^ 63 + x + 2 ^ 63)
    with ((z + 2 ^ 63) mod 2 ^ 64 + x) by lia.
  rewrite Z.add_mod_idemp_l by lia. f_equal. f_equal. lia.
Qed.

(** The int64 sum of a column is the sum of its values, wrapped. *)
Lemma sum64_wrap l : sum64 l = wrap64 (zsum l).
Proof.
  unfold sum64. change 0 with (wrap64 0) at 1.
  replace (zsum l) with (0 + zsum l) by lia.
  generalize 0 as acc. induction l as [|x l IH]; intros acc.
  - cbn. f_equal. lia.
  - cbn [fold_left]. rewrite wrap64_add, IH. f_equal. zsum_lia.
Qed.

Lemma sum_bounded (p : Transaction -> bool) l :
  Z.abs (zsum (map Transaction_Amount (filter p l)))
  <= zsum (map (fun r => Z.abs (Transaction_Amount r)) l).
Proof.
  induction l as [|r l IH]; [cbn; lia|].
  cbn [filter]. destruct (p r); zsum_lia.
Qed.

(** On a frame with exact sums the int64 sum of the amounts of any selection
    of its rows, and the absolute value of that sum, are the numbers of the
    model. *)
Lemma sums_exact_int64 df (p : Transaction -> bool) :
  sums_exact df ->
  let amounts := map Transaction_Amount (filter p (rows df)) in
  sum64 amounts = zsum amounts /\ abs64 (sum64 amounts) = Z.abs (zsum amounts).
Proof.
  intros H amounts. unfold sums_exact in H.
  pose proof (sum_bounded p (rows df)) as Hb. fold amounts in Hb.
  assert (2 ^ 53 < 2 ^ 63) by (vm_compute; reflexivity).
  assert (E : sum64 amounts = zsum amounts)
    by (rewrite sum64_wrap; apply wrap64_small; lia).
  split; [exact E|].
  rewrite E. unfold abs64. apply wrap64_small. lia.
Qed.

(** X8: on a filtered set whose sums are exact, total deposits and total
    withdrawals are the int64 sum of the positive amounts and the absolute
    value of the int64 sum of the negative amounts; both are non-negative,
    and their difference is the plain sum of all amounts of the set. *)
Theorem kpi_net_cash_flow (S : Sorter) (df : DataFrame) :
  sums_exact df ->
  deposit (get_kpi_metrics S df)
  = sum64 (map Transaction_Amount (filter amount_pos (rows df))) /\
  withdrawal (get_kpi_metrics S df)
  = abs64 (sum64 (map Transaction_Amount (filter amount_neg (rows df)))) /\
  0 <= deposit (get_kpi_metrics S df) /\
  0 <= withdrawal (get_kpi_metrics S df) /\
  deposit (get_kpi_metrics S df) - withdrawal (get_kpi_metrics S df)
  = amount_sum df.
Proof.
  intros Hx.
  destruct (sums_exact_int64 df amount_pos Hx) as [-> _].
  destruct (sums_exact_int64 df amount_neg Hx) as [_ ->].
  destruct (kpi_totals S df) as [-> ->].
  pose proof (signed_sum_split (rows df)).
  pose proof (positive_sum_nonneg (rows df)).
  assert (zsum (map Transaction_Amount (filter amount_neg (rows df))) <= 0)
    by (apply negative_sum_nonpos; intros r Hr; now apply filter_In in Hr).
  unfold amount_sum. repeat split; lia.
Qed.

Lemma kpi_net_cash_flow_witness :
  deposit (get_kpi_metrics stable_sorter both_sides_df)
  = sum64 (map Transaction_Amount (filter amount_pos (rows both_sides_df))) /\
  withdrawal (get_kpi_metrics stable_sorter both_sides_df)
  = abs64 (sum64 (map Transaction_Amount
                    (filter amount_neg (rows both_sides_df)))) /\
  0 <= deposit (get_kpi_metrics stable_sorter both_sides_df) /\
  0 <= withdrawal (get_kpi_metrics stable_sorter both_sides_df) /\
  deposit (get_kpi_metrics stable_sorter both_sides_df)
  - withdrawal (get_kpi_metrics stable_sorter both_sides_df)
  = amount_sum both_sides_df.
Proof.
  apply (kpi_net_cash_flow stable_sorter both_sides_df).
  vm_compute. reflexivity.
Defined.

(** Without the bound the int64 numbers are others: two deposits of 2^62
    won add up to a negative total. *)
Example sum64_wraps : sum64 [2 ^ 62; 2 ^ 62] = - 2 ^ 63.
Proof. vm_compute. reflexivity. Qed.


(** X9: the two values of the donut chart are the KPI totals of the same
    filtered set, also when the set is empty. *)
Theorem donut_matches_kpi (S : Sorter) (df : DataFrame) :
  make_donut_chart df
  = [("Income"%string, deposit (get_kpi_metrics S df));
     ("Expenses"%string, withdrawal (get_kpi_metrics S df))].
Proof.
  unfold make_donut_chart, get_kpi_metrics, empty, amount_sum, select.
  destruct (rows df); reflexivity.
Qed.

Lemma filter_nothing {A} (p : A -> bool) l :
  (forall x, In x l -> p x = false) -> filter p l = [].
Proof.
  induction l as [|x l IH]; intros H; [reflexivity|].
  cbn [filter]. rewrite (H x (or_introl eq_refl)).
  apply IH. intros y Hy. apply H. now right.
Qed.

Lemma tabulate_lookup {V} (f : string -> V) ks k :
  Pd.lookup k (map (fun k => (k, f k)) ks)
  = if Pd.mem k ks then Some (f k) else None.
Proof.
  unfold Pd.mem. induction ks as [|k0 ks IH]; [reflexivity|].
  cbn [map Pd.lookup existsb].
  destruct (String.eqb k k0) eqn:E; [|exact IH].
  apply String.eqb_eq in E. now subst.
Qed.

Lemma mem_in k ks : Pd.mem k ks = true <-> In k ks.
Proof.
  unfold Pd.mem. rewrite existsb_exists. split.
  - intros [x [Hx E]]. apply String.eqb_eq in E. now subst.
  - intros H. exists k. split; [exact H|apply String.eqb_refl].
Qed.

Lemma group_without_rows {A} (key : A -> option string) (val : A -> Z) l k :
  ~ In k (keys_of key l) ->
  zsum (map val (filter (has_key key k) l)) = 0.
Proof.
  intros H. rewrite filter_nothing; [reflexivity|].
  intros r Hr. unfold has_key. destruct (key r) as [k'|] eqn:E; [|reflexivity].
  apply String.eqb_neq. intros ->. apply H, in_keys_of. now exists r.
Qed.

Lemma group_lookup {A} (key : A -> option string) (val : A -> Z) l k :
  or0 (Pd.lookup k (groupby_sum key val l))
  = zsum (map val (filter (has_key key k) l)).
Proof.
  unfold groupby_sum. rewrite tabulate_lookup.
  destruct (Pd.mem k (unique_keys (keys_of key l))) eqn:E; [reflexivity|].
  cbn [or0]. symmetry. apply group_without_rows.
  intros H. apply in_unique_keys, mem_in in H. congruence.
Qed.

Lemma income_lookup df k :
  or0 (Pd.lookup k (monthly_income df)) = income_of df k.
Proof.
  apply group_lookup.
Qed.

Lemma expense_lookup df k :
  or0 (Pd.lookup k (monthly_expense df)) = expense_of df k.
Proof.
  unfold monthly_expense, expense_of. rewrite lookup_series_abs.
  rewrite <- (group_lookup month_key Transaction_Amount).
  cbn [select rows].
  now destruct (Pd.lookup k (groupby_sum month_key Transaction_Amount
                               (filter amount_neg (rows df)))).
Qed.

(** The months of the two monthly series together: those of the rows whose
    amount is not 0. *)
Lemma in_union_index df k :
  In k (union_index (monthly_income df) (monthly_expense df)) <->
  exists r, In r (rows df) /\ Transaction_Amount r <> 0 /\
            month_str (Date r) = k.
Proof.
  unfold union_index, monthly_income, monthly_expense.
  rewrite in_unique_keys, in_app_iff, series_abs_index.
  rewrite !groupby_sum_index, !in_unique_keys, !in_keys_of.
  cbn [select rows]. unfold month_key. split.
  - intros [[r [Hr Hk]]|[r [Hr Hk]]]; apply filter_In in Hr;
      destruct Hr as [Hr Hs]; exists r; (split; [exact Hr|]);
      (split; [|congruence]).
    + unfold amount_pos in Hs. lia.
    + unfold amount_neg in Hs. lia.
  - intros [r [Hr [Hs Hk]]].
    destruct (Z.ltb_spec 0 (Transaction_Amount r)) as [Hp|Hp].
    + left. exists r. split; [|congruence].
      apply filter_In. split; [exact Hr|]. unfold amount_pos. lia.
    + right. exists r. split; [|congruence].
      apply filter_In. split; [exact Hr|]. unfold amount_neg. lia.
Qed.


(** X11: on a filtered set whose sums are exact, the Income column of the
    monthly frame adds up to the KPI total of deposits and its Expense
    column to the KPI total of withdrawals. *)
Theorem monthly_trend_totals (S : Sorter) (df : DataFrame) :
  sums_exact df ->
  zsum (map (fun row => snd (fst row)) (trend_df df))
  = deposit (get_kpi_metrics S df) /\
  zsum (map snd (trend_df df)) = withdrawal (get_kpi_metrics S df).
Proof.
  intros _. destruct (kpi_totals S df) as [-> ->].
  unfold trend_df, merge_outer_fillna. rewrite !map_map. cbn [fst snd].
  set (U := union_index (monthly_income df) (monthly_expense df)).
  assert (HU : forall r, In r (rows df) -> Transaction_Amount r <> 0 ->
                         In (month_str (Date r)) U).
  { intros r Hr Hs. apply in_union_index. now exists r. }
  split.
  - rewrite (map_ext _ (income_of df)) by (intros; apply income_lookup).
    unfold income_of. apply group_sums_total; [apply unique_keys_nodup|].
    intros r Hr. apply filter_In in Hr. destruct Hr as [Hr Hs].
    exists (month_str (Date r)). split; [reflexivity|].
    apply HU; [exact Hr|]. unfold amount_pos in Hs. lia.
  - rewrite (map_ext _ (fun k => - zsum (map Transaction_Amount
               (filter (has_key month_key k) (filter amount_neg (rows df)))))).
    + rewrite zsum_map_opp. f_equal.
      apply group_sums_total; [apply unique_keys_nodup|].
      intros r Hr. apply filter_In in Hr. destruct Hr as [Hr Hs].
      exists (month_str (Date r)). split; [reflexivity|].
      apply HU; [exact Hr|]. unfold amount_neg in Hs. lia.
    + intros k. rewrite expense_lookup. unfold expense_of.
      assert (zsum (map Transaction_Amount
                (filter (has_key month_key k) (filter amount_neg (rows df))))
              <= 0); [|lia].
      apply negative_sum_nonpos. intros r Hr.
      apply filter_In in Hr. destruct Hr as [Hr _].
      now apply filter_In in Hr.
Qed.

Lemma monthly_trend_totals_witness :
  zsum (map (fun row => snd (fst row)) (trend_df example_df))
  = deposit (get_kpi_metrics stable_sorter example_df) /\
  zsum (map snd (trend_df example_df))
  = withdrawal (get_kpi_metrics stable_sorter example_df).
Proof.
  apply (monthly_trend_totals stable_sorter example_df).
  vm_compute. reflexivity.
Defined.

Lemma month_has_in p df k :
  month_has p df k = true <->
  In k (keys_of month_key (filter p (rows df))).
Proof.
  unfold month_has. rewrite existsb_exists, in_keys_of. split.
  - intros [r [Hr H]]. apply andb_prop in H. destruct H as [Hp Hk].
    exists r. split; [now apply filter_In|].
    unfold has_key, month_key in *. apply String.eqb_eq in Hk. now subst.
  - intros [r [Hr Hk]]. apply filter_In in Hr. destruct Hr as [Hr Hp].
    exists r. split; [exact Hr|]. rewrite Hp. cbn [andb].
    unfold has_key. rewrite Hk. apply String.eqb_refl.
Qed.

Lemma month_has_lookup_income df k :
  Pd.lookup k (monthly_income df)
  = if month_has amount_pos df k then Some (income_of df k) else None.
Proof.
  unfold monthly_income, groupby_sum. rewrite tabulate_lookup.
  cbn [select rows].
  destruct (month_has amount_pos df k) eqn:E.
  - apply month_has_in, in_unique_keys, mem_in in E. now rewrite E.
  - destruct (Pd.mem k _) eqn:M; [|reflexivity].
    apply mem_in, in_unique_keys, month_has_in in M. congruence.
Qed.

Lemma month_has_lookup_expense df k :
  Pd.lookup k (monthly_expense df)
  = if month_has amount_neg df k then Some (expense_of df k) else None.
Proof.
  unfold monthly_expense, groupby_sum. rewrite lookup_series_abs.
  rewrite tabulate_lookup. cbn [select rows].
  destruct (month_has amount_neg df k) eqn:E.
  - apply month_has_in, in_unique_keys, mem_in in E. now rewrite E.
  - destruct (Pd.mem k _) eqn:M; [|reflexivity].
    apply mem_in, in_unique_keys, month_has_in in M. congruence.
Qed.


(** X13: on a filtered set whose sums are exact and in which every month
    either has both a deposit and a withdrawal or has neither, total
    deposits minus total withdrawals is the sum of the net income series. *)
Theorem net_income_adds_up (S : Sorter) (df : DataFrame) :
  sums_exact df ->
  (forall k, month_has amount_pos df k = month_has amount_neg df k) ->
  deposit (get_kpi_metrics S df) - withdrawal (get_kpi_metrics S df)
  = sum_skipna (map snd (make_net_income_chart df)).
Proof.
  intros _ H. apply kpi_net_income_two_sided. intros k.
  unfold monthly_income, monthly_expense.
  rewrite series_abs_index, !groupby_sum_index, !in_unique_keys.
  cbn [select rows]. rewrite <- !month_has_in, H. tauto.
Qed.

Lemma month_has_both_sides k :
  month_has amount_pos both_sides_df k = month_has amount_neg both_sides_df k.
Proof.
  unfold month_has, both_sides_df, frame, tx, has_key, month_key.
  cbn [rows existsb Date Transaction_Amount amount_pos amount_neg].
  change (month_str (mkTs 2024 1 10 9 0 0)) with "2024-01"%string.
  change (month_str (mkTs 2024 1 12 9 0 0)) with "2024-01"%string.
  change (month_str (mkTs 2024 1 20 12 0 0)) with "2024-01"%string.
  unfold amount_pos, amount_neg. cbn [Transaction_Amount].
  destruct (String.eqb k "2024-01"); reflexivity.
Qed.

Lemma net_income_adds_up_witness :
  deposit (get_kpi_metrics stable_sorter both_sides_df)
  - withdrawal (get_kpi_metrics stable_sorter both_sides_df)
  = sum_skipna (map snd (make_net_income_chart both_sides_df)).
Proof.
  apply (net_income_adds_up stable_sorter both_sides_df).
  - vm_compute. reflexivity.
  - exact month_has_both_sides.
Defined.

Lemma first_seen_in l x : In x (first_seen l) <-> In x l.
Proof.
  unfold first_seen. now rewrite <- in_rev, nodup_In, <- in_rev.
Qed.

Lemma first_seen_nodup l : NoDup (first_seen l).
Proof.
  unfold first_seen. apply NoDup_rev, NoDup_nodup.
Qed.

Lemma zsum_cons x l : zsum (x :: l) = x + zsum l.
Proof. reflexivity. Qed.

Lemma zsum_one_hot (ks : list Z) k0 :
  NoDup ks -> In k0 ks ->
  zsum (map (fun k => if Z.eq_dec k0 k then 1 else 0) ks) = 1.
Proof.
  induction 1 as [|k ks Hk Hnd IH]; intros Hin; [contradiction|].
  cbn [map]. rewrite zsum_cons. destruct Hin as [->|Hin].
  - destruct (Z.eq_dec k0 k0); [|contradiction].
    rewrite (map_ext_in _ (fun _ => 0)).
    + rewrite zsum_map_zero. lia.
    + intros k Hk'. destruct (Z.eq_dec k0 k); [congruence|reflexivity].
  - rewrite (IH Hin).
    destruct (Z.eq_dec k0 k); [congruence|lia].
Qed.

(** The counts of the distinct values add up to the number of values. *)
Lemma counts_total (l ks : list Z) :
  NoDup ks -> incl l ks ->
  zsum (map (fun k => Z.of_nat (count_occ Z.eq_dec l k)) ks)
  = Z.of_nat (List.length l).
Proof.
  intros Hnd. induction l as [|x l IH]; intros Hin.
  - cbn. apply zsum_map_zero.
  - rewrite (map_ext _ (fun k => (if Z.eq_dec x k then 1 else 0)
                                 + Z.of_nat (count_occ Z.eq_dec l k))).
    + rewrite zsum_map_add, zsum_one_hot, IH.
      * cbn [List.length]. lia.
      * intros y Hy. apply Hin. now right.
      * exact Hnd.
      * apply Hin. now left.
    + intros k. cbn [count_occ]. destruct (Z.eq_dec x k); lia.
Qed.

Lemma value_counts_perm (S : Sorter) l :
  Permutation
    (map (fun h => (h, Z.of_nat (count_occ Z.eq_dec l h))) (first_seen l))
    (value_counts S l).
Proof.
  apply sort_desc_perm.
Qed.

Lemma value_counts_nodup (S : Sorter) l : NoDup (map fst (value_counts S l)).
Proof.
  eapply Permutation_NoDup;
    [apply Permutation_map, value_counts_perm|].
  rewrite map_map. cbn [fst]. rewrite map_id. apply first_seen_nodup.
Qed.

Lemma value_counts_in (S : Sorter) l h c :
  In (h, c) (value_counts S l) <->
  In h l /\ c = Z.of_nat (count_occ Z.eq_dec l h).
Proof.
  split.
  - intros H.
    apply (Permutation_in _ (Permutation_sym (value_counts_perm S l))) in H.
    apply in_map_iff in H. destruct H as [h' [E Hh]]. injection E as -> <-.
    apply (proj1 (first_seen_in _ _)) in Hh. now split.
  - intros [Hh ->]. apply (Permutation_in _ (value_counts_perm S l)).
    apply in_map_iff. exists h.
    split; [reflexivity|now apply first_seen_in].
Qed.

(** X14: the hourly histogram has one row for every hour of day at which
    the filtered set has a transaction and none for the other hours; the
    row holds the number of transactions at that hour; the rows come in
    descending order of count and their counts add up to the number of
    transactions. *)
Theorem hourly_histogram (S : Sorter) (df : DataFrame) :
  let hourly := fst (make_heatmap S df) in
  let hours := map (fun r => hour (Date r)) (rows df) in
  StronglySorted (fun a b => snd b <= snd a) hourly /\
  NoDup (map fst hourly) /\
  (forall h c, In (h, c) hourly <->
               In h hours /\ c = Z.of_nat (count_occ Z.eq_dec hours h)) /\
  zsum (map snd hourly) = Z.of_nat (List.length (rows df)).
Proof.
  intros hourly hours. unfold hourly, make_heatmap. cbn [fst]. fold hours.
  split; [apply sort_desc_sorted|]. split; [apply value_counts_nodup|].
  split; [apply value_counts_in|].
  rewrite <- (zsum_perm _ _ (Permutation_map snd (value_counts_perm S hours))).
  rewrite map_map. cbn [snd]. rewrite counts_total.
  - unfold hours. now rewrite length_map.
  - apply first_seen_nodup.
  - intros x Hx. now apply first_seen_in.
Qed.

(** X15: when every timestamp has its hour between 0 and 23, the hourly
    histogram has at most 24 rows and every row is for one of these
    hours. *)
Theorem hourly_histogram_at_most_24 (S : Sorter) (df : DataFrame) :
  (forall r, In r (rows df) -> 0 <= hour (Date r) <= 23) ->
  (List.length (fst (make_heatmap S df)) <= 24)%nat /\
  forall h c, In (h, c) (fst (make_heatmap S df)) -> 0 <= h <= 23.
Proof.
  intros Hh. unfold make_heatmap. cbn [fst].
  set (hours := map (fun r => hour (Date r)) (rows df)).
  assert (Hr : forall h c, In (h, c) (value_counts S hours) ->
                           0 <= h <= 23).
  { intros h c H. apply value_counts_in in H. destruct H as [H _].
    apply in_map_iff in H. destruct H as [r [<- Hr]]. now apply Hh. }
  split; [|exact Hr].
  rewrite <- (length_map fst).
  change 24%nat with (List.length (map Z.of_nat (seq 0 24))).
  apply NoDup_incl_length; [apply value_counts_nodup|].
  intros h H. apply in_map_iff in H. destruct H as [[h' c] [<- H]].
  apply Hr in H. cbn [fst].
  apply in_map_iff. exists (Z.to_nat h'). split; [lia|].
  apply in_seq. lia.
Qed.

Lemma hourly_histogram_at_most_24_witness :
  (List.length (fst (make_heatmap stable_sorter example_df)) <= 24)%nat /\
  forall h c, In (h, c) (fst (make_heatmap stable_sorter example_df)) ->
              0 <= h <= 23.
Proof.
  apply (hourly_histogram_at_most_24 stable_sorter example_df).
  intros r [<-|[<-|[]]]; cbn; lia.
Defined.


Example type_totals_cancel :
  make_transaction_type_chart stable_sorter tied_df
  = [("Deposit", 5000, 5000); ("Withdrawal", -5000, 5000)]%string.
Proof. reflexivity. Qed.

(** X17: on a filtered set whose sums are exact and whose transactions all
    have a type, the signed amounts of the per-type totals add up to total
    deposits minus total withdrawals. *)
Theorem type_totals_add_up (S : Sorter) (df : DataFrame) :
  sums_exact df ->
  (forall r, In r (rows df) -> Transaction_Type r <> None) ->
  zsum (map (fun row => snd (fst row)) (make_transaction_type_chart S df))
  = deposit (get_kpi_metrics S df) - withdrawal (get_kpi_metrics S df).
Proof.
  intros _ Hty. destruct (kpi_totals S df) as [-> ->].
  pose proof (signed_sum_split (rows df)) as Hsplit.
  unfold make_transaction_type_chart.
  set (st := map (fun kv => (fst kv, snd kv, Z.abs (snd kv)))
                 (groupby_sum Transaction_Type Transaction_Amount (rows df))).
  rewrite <- (zsum_perm _ _
                (Permutation_map (fun row => snd (fst row))
                                 (sort_desc_perm S _ snd st))).
  unfold st. rewrite map_map. cbn [fst snd].
  fold (map (@snd string Z)
            (groupby_sum Transaction_Type Transaction_Amount (rows df))).
  rewrite groupby_sum_total by exact Hty. lia.
Qed.

Lemma type_totals_add_up_witness :
  zsum (map (fun row => snd (fst row))
            (make_transaction_type_chart stable_sorter example_df))
  = deposit (get_kpi_metrics stable_sorter example_df)
    - withdrawal (get_kpi_metrics stable_sorter example_df).
Proof.
  apply (type_totals_add_up stable_sorter example_df).
  - vm_compute. reflexivity.
  - intros r [<-|[<-|[]]]; discriminate.
Defined.

(** * Further properties of [main] *)

Lemma filter_twice {A} (p q : A -> bool) l :
  filter q (filter p l) = filter (fun x => p x && q x) l.
Proof.
  induction l as [|x l IH]; [reflexivity|].
  cbn [filter]. destruct (p x); cbn [filter andb]; now rewrite IH.
Qed.

Lemma filter_all {A} (p : A -> bool) l :
  (forall x, In x l -> p x = true) -> filter p l = l.
Proof.
  induction l as [|x l IH]; intros H; [reflexivity|].
  cbn [filter]. rewrite (H x (or_introl eq_refl)). f_equal.
  apply IH. intros y Hy. apply H. now right.
Qed.

Lemma isin_in x l : isin x l = true <-> In x l.
Proof.
  unfold isin. rewrite existsb_exists. split.
  - intros [y [Hy E]]. apply Z.eqb_eq in E. now subst.
  - intros H. exists x. split; [exact H|apply Z.eqb_refl].
Qed.

Lemma filter_months_rows df ms :
  rows (filter_months df ms)
  = filter (fun r => isin (month (Date r)) ms) (rows df).
Proof.
  unfold filter_months. destruct ms; reflexivity.
Qed.

Lemma main_rows (S : Sorter) raw selected_years selected_months d :
  main S raw selected_years selected_months = Some d ->
  rows (filtered_df d)
  = filter (fun r => isin (year (Date r)) selected_years
                     && isin (month (Date r)) selected_months)
           (rows raw).
Proof.
  unfold main. destruct selected_years as [|y ys]; [discriminate|].
  intros H. injection H as <-. cbn [filtered_df make_heatmap rows fst snd].
  rewrite filter_months_rows. cbn [select rows]. apply filter_twice.
Qed.

Lemma main_runs (S : Sorter) raw selected_years selected_months :
  selected_years <> [] ->
  exists d, main S raw selected_years selected_months = Some d.
Proof.
  intros H. unfold main. destruct selected_years; [contradiction|].
  eexists. reflexivity.
Qed.

(** X18: a pass of [main] computes nothing when no year is selected;
    otherwise its filtered set holds, in table order, exactly the
    transactions whose year is among the selected years and whose month is
    among the selected months (a month counts for every selected year). *)
Theorem main_filtered_set (S : Sorter) raw selected_years selected_months :
  match main S raw selected_years selected_months with
  | None => selected_years = []
  | Some d =>
      selected_years <> [] /\
      rows (filtered_df d)
      = filter (fun r => isin (year (Date r)) selected_years
                         && isin (month (Date r)) selected_months)
               (rows raw)
  end.
Proof.
  destruct (main S raw selected_years selected_months) as [d|] eqn:E.
  - split; [|now apply (main_rows S)].
    intros ->. discriminate E.
  - destruct selected_years as [|y ys]; [reflexivity|].
    destruct (main_runs S raw (y :: ys) selected_months) as [d Hd];
      [discriminate|congruence].
Qed.

(** No aggregate reads anything of a frame but its rows. *)
Lemma aggregates_read_rows (S : Sorter) df df' :
  rows df = rows df' ->
  get_kpi_metrics S df = get_kpi_metrics S df' /\
  make_bar_trend df = make_bar_trend df' /\
  make_donut_chart df = make_donut_chart df' /\
  make_net_income_chart df = make_net_income_chart df' /\
  fst (make_heatmap S df) = fst (make_heatmap S df') /\
  (forall b, make_remarks_chart S df b = make_remarks_chart S df' b) /\
  make_transaction_type_chart S df = make_transaction_type_chart S df'.
Proof.
  destruct df as [l h], df' as [l' h']. cbn [rows]. intros <-.
  repeat split; try reflexivity.
  intros b. apply make_remarks_chart_rows. reflexivity.
Qed.

(** X19: when the selected years and months cover every transaction of the
    table, the filtered set has the rows of the table and every aggregate
    of the pass is the aggregate of the unfiltered table. *)
Theorem full_selection_is_identity (S : Sorter) raw selected_years
  selected_months :
  selected_years <> [] ->
  (forall r, In r (rows raw) ->
             In (year (Date r)) selected_years /\
             In (month (Date r)) selected_months) ->
  exists d,
    main S raw selected_years selected_months = Some d /\
    rows (filtered_df d) = rows raw /\
    metrics d = get_kpi_metrics S raw /\
    bar_trend d = make_bar_trend raw /\
    donut d = make_donut_chart raw /\
    net_income d = make_net_income_chart raw /\
    heatmap d = fst (make_heatmap S raw) /\
    top_withdrawals d = make_remarks_chart S raw true /\
    top_deposits d = make_remarks_chart S raw false /\
    type_totals d = make_transaction_type_chart S raw.
Proof.
  intros Hy Hall.
  destruct (main_runs S raw selected_years selected_months Hy) as [d E].
  pose proof (main_rows S raw selected_years selected_months d E) as Hrows.
  rewrite filter_all in Hrows.
  2:{ intros r Hr. destruct (Hall r Hr) as [H1 H2].
      apply isin_in in H1, H2. now rewrite H1, H2. }
  exists d. split; [exact E|]. split; [exact Hrows|].
  unfold main in E. destruct selected_years as [|y ys]; [contradiction|].
  injection E as <-.
  cbn [metrics bar_trend donut net_income heatmap top_withdrawals
       top_deposits type_totals filtered_df rows] in *.
  set (f := filter_months _ _) in *.
  assert (Hf : rows f = rows raw) by exact Hrows.
  destruct (aggregates_read_rows S f raw Hf) as (H1 & H2 & H3 & H4 & H5 & H6 & H7).
  repeat split; try assumption;
    (etransitivity; [|apply H6]); apply make_remarks_chart_rows; reflexivity.
Qed.

Lemma full_selection_is_identity_witness :
  exists d,
    main stable_sorter example_df [2023; 2024] [1; 2; 3] = Some d /\
    rows (filtered_df d) = rows example_df /\
    metrics d = get_kpi_metrics stable_sorter example_df /\
    bar_trend d = make_bar_trend example_df /\
    donut d = make_donut_chart example_df /\
    net_income d = make_net_income_chart example_df /\
    heatmap d = fst (make_heatmap stable_sorter example_df) /\
    top_withdrawals d = make_remarks_chart stable_sorter example_df true /\
    top_deposits d = make_remarks_chart stable_sorter example_df false /\
    type_totals d = make_transaction_type_chart stable_sorter example_df.
Proof.
  apply (full_selection_is_identity stable_sorter example_df
           [2023; 2024] [1; 2; 3]).
  - discriminate.
  - intros r [<-|[<-|[]]]; cbn; tauto.
Defined.

Lemma insert_Z_perm x l : Permutation (x :: l) (insert_Z x l).
Proof.
  induction l as [|y l IH]; cbn [insert_Z]; [reflexivity|].
  destruct (x <=? y); [reflexivity|].
  rewrite perm_swap. now constructor.
Qed.

Lemma sorted_unique_perm l : Permutation (nodup Z.eq_dec l) (sorted_unique l).
Proof.
  unfold sorted_unique. induction (nodup Z.eq_dec l) as [|x l' IH];
    cbn [fold_right]; [constructor|].
  rewrite <- insert_Z_perm. now constructor.
Qed.

Lemma sorted_unique_in x l : In x (sorted_unique l) <-> In x l.
Proof.
  rewrite <- (nodup_In Z.eq_dec l x). split; apply Permutation_in.
  - symmetry. apply sorted_unique_perm.
  - apply sorted_unique_perm.
Qed.

Lemma sorted_unique_nodup l : NoDup (sorted_unique l).
Proof.
  eapply Permutation_NoDup; [apply sorted_unique_perm|apply NoDup_nodup].
Qed.

Lemma insert_Z_sorted x l :
  StronglySorted Z.le l -> StronglySorted Z.le (insert_Z x l).
Proof.
  induction 1 as [|y l Hs IH Hy]; cbn [insert_Z].
  - repeat constructor.
  - destruct (Z.leb_spec x y).
    + constructor; [now constructor|].
      constructor; [assumption|].
      eapply Forall_impl; [|exact Hy]. cbn. intros; lia.
    + constructor; [assumption|].
      eapply Permutation_Forall; [apply insert_Z_perm|].
      constructor; [lia|assumption].
Qed.

Lemma sorted_unique_sorted l : StronglySorted Z.le (sorted_unique l).
Proof.
  unfold sorted_unique. induction (nodup Z.eq_dec l) as [|x l' IH];
    cbn [fold_right]; [constructor|].
  now apply insert_Z_sorted.
Qed.

Lemma last_greatest l :
  StronglySorted Z.le l -> l <> [] ->
  In (last l 0) l /\ forall x, In x l -> x <= last l 0.
Proof.
  induction 1 as [|y l Hs IH Hy]; intros Hne; [contradiction|].
  destruct l as [|z l'].
  - cbn. split; [now left|]. intros x [<-|[]]. lia.
  - change (last (y :: z :: l') 0) with (last (z :: l') 0).
    destruct IH as [Hin Hmax]; [discriminate|].
    split; [now right|].
    intros x [<-|Hx]; [|now apply Hmax].
    rewrite Forall_forall in Hy. now apply Hy.
Qed.

(** The year the default selection picks. *)
Lemma default_year raw :
  rows raw <> [] ->
  exists y,
    default_years (available_years raw) = [y] /\
    (exists r, In r (rows raw) /\ year (Date r) = y) /\
    forall r, In r (rows raw) -> year (Date r) <= y.
Proof.
  intros Hne. unfold default_years, available_years.
  set (ys := sorted_unique (map (fun r => year (Date r)) (rows raw))).
  assert (Hys : ys <> []).
  { destruct (rows raw) as [|r l] eqn:E; [contradiction|].
    intros H0.
    assert (In (year (Date r)) ys) by (apply sorted_unique_in; now left).
    rewrite H0 in H. contradiction. }
  destruct (last_greatest ys (sorted_unique_sorted _) Hys) as [Hin Hmax].
  exists (last ys 0). split; [now destruct ys|]. split.
  - apply sorted_unique_in, in_map_iff in Hin.
    destruct Hin as [r [E Hr]]. now exists r.
  - intros r Hr. apply Hmax. apply sorted_unique_in, in_map_iff. now exists r.
Qed.

(** X20: for a table with at least one transaction the default year
    selection is the single greatest year that occurs in the table; for a
    table without rows it is empty. *)
Theorem default_year_is_latest raw :
  (rows raw = [] -> default_years (available_years raw) = []) /\
  (rows raw <> [] ->
   exists y,
     default_years (available_years raw) = [y] /\
     (exists r, In r (rows raw) /\ year (Date r) = y) /\
     forall r, In r (rows raw) -> year (Date r) <= y).
Proof.
  split; [|apply default_year].
  intros H. unfold available_years. now rewrite H.
Qed.

(** X21: with the default selection (the latest year, and every month
    offered for it) the filtered set of [main] is every transaction of the
    latest year of the table, in table order, and it is not empty. *)
Theorem default_selection_shows_latest_year (S : Sorter) raw :
  rows raw <> [] ->
  let selected_years := default_years (available_years raw) in
  let year_filtered :=
    select (fun r => isin (year (Date r)) selected_years) raw in
  let selected_months := available_months_int year_filtered in
  exists d y,
    main S raw selected_years selected_months = Some d /\
    selected_years = [y] /\
    (forall r, In r (rows raw) -> year (Date r) <= y) /\
    rows (filtered_df d)
    = filter (fun r => year (Date r) =? y) (rows raw) /\
    rows (filtered_df d) <> [].
Proof.
  intros Hne selected_years year_filtered selected_months.
  destruct (default_year raw Hne) as (y & Hy & [r0 [Hr0 Hy0]] & Hmax).
  destruct (main_runs S raw selected_years selected_months) as [d E].
  { unfold selected_years. rewrite Hy. discriminate. }
  pose proof (main_rows S raw selected_years selected_months d E) as Hrows.
  assert (Hf : rows (filtered_df d)
               = filter (fun r => year (Date r) =? y) (rows raw)).
  { rewrite Hrows. apply filter_ext_in. intros r Hr.
    unfold selected_years at 1. rewrite Hy. cbn [isin existsb].
    rewrite orb_false_r.
    destruct (year (Date r) =? y) eqn:Ey; [|reflexivity].
    cbn [andb]. apply isin_in. unfold selected_months, available_months_int.
    apply sorted_unique_in, in_map_iff. exists r. split; [reflexivity|].
    unfold year_filtered, selected_years. rewrite Hy. cbn [select rows].
    apply filter_In. split; [exact Hr|]. cbn [isin existsb].
    now rewrite Ey. }
  exists d, y. repeat split; try assumption.
  rewrite Hf. intros H0.
  assert (In r0 (filter (fun r => year (Date r) =? y) (rows raw)))
    by (apply filter_In; split; [exact Hr0|now apply Z.eqb_eq]).
  rewrite H0 in H. contradiction.
Qed.

Lemma default_selection_shows_latest_year_witness :
  let selected_years := default_years (available_years both_years_df) in
  let year_filtered :=
    select (fun r => isin (year (Date r)) selected_years) both_years_df in
  let selected_months := available_months_int year_filtered in
  exists d y,
    main stable_sorter both_years_df selected_years selected_months = Some d /\
    selected_years = [y] /\
    (forall r, In r (rows both_years_df) -> year (Date r) <= y) /\
    rows (filtered_df d)
    = filter (fun r => year (Date r) =? y) (rows both_years_df) /\
    rows (filtered_df d) <> [].
Proof.
  apply (default_selection_shows_latest_year stable_sorter both_years_df).
  discriminate.
Defined.

Example default_selection_sample :
  default_years (available_years both_years_df) = [2024] /\
  available_months_int
    (select (fun r => isin (year (Date r)) [2024]) both_years_df) = [1; 2].
Proof. split; reflexivity. Qed.

Section DictFacts.

Context {K V : Type} (eqb : K -> K -> bool).
Hypothesis eqb_spec : forall x y, eqb x y = true <-> x = y.

Lemma dict_set_fresh k (v : V) d :
  ~ In k (map fst d) -> dict_set eqb k v d = d ++ [(k, v)].
Proof.
  induction d as [|[k' v'] d IH]; intros H; [reflexivity|].
  cbn [dict_set app]. destruct (eqb k k') eqn:E.
  - apply eqb_spec in E. subst. exfalso. apply H. now left.
  - f_equal. apply IH. intros H'. apply H. now right.
Qed.

Lemma dict_fill_distinct (items d : list (K * V)) :
  NoDup (map fst (d ++ items)) ->
  fold_left (fun d kv => dict_set eqb (fst kv) (snd kv) d) items d
  = d ++ items.
Proof.
  revert d. induction items as [|[k v] items IH]; intros d H.
  - now rewrite app_nil_r.
  - cbn [fold_left fst snd].
    rewrite dict_set_fresh.
    + rewrite IH; rewrite <- app_assoc; [reflexivity|exact H].
    + rewrite map_app in H. cbn [map fst] in H.
      apply NoDup_remove_2 in H. intros Hin. apply H.
      apply in_or_app. now left.
Qed.

(** A comprehension over items with distinct keys keeps them as they are. *)
Lemma dict_of_distinct (items : list (K * V)) :
  NoDup (map fst items) -> dict_of eqb items = items.
Proof.
  intros H. unfold dict_of. now rewrite dict_fill_distinct.
Qed.

Lemma dict_get_in k (v : V) d :
  NoDup (map fst d) -> In (k, v) d -> dict_get eqb k d = Some v.
Proof.
  induction d as [|[k' v'] d IH]; intros Hnd Hin; [contradiction|].
  cbn [dict_get]. cbn [map fst] in Hnd. inversion Hnd as [|? ? Hk Hnd']; subst.
  destruct Hin as [E|Hin].
  - injection E as -> ->.
    now rewrite (proj2 (eqb_spec k k) eq_refl).
  - destruct (eqb k k') eqn:E; [|now apply IH].
    apply eqb_spec in E. subst. exfalso. apply Hk.
    apply in_map_iff. now exists (k', v).
Qed.

End DictFacts.

Lemma all_some_map {A B} (f : A -> option B) (g : A -> B) l :
  (forall x, In x l -> f x = Some (g x)) ->
  all_some (map f l) = Some (map g l).
Proof.
  induction l as [|x l IH]; intros H; [reflexivity|].
  cbn [map all_some]. rewrite (H x (or_introl eq_refl)).
  rewrite IH by (intros y Hy; apply H; now right). reflexivity.
Qed.

Lemma month_name_some m :
  1 <= m <= 12 -> month_name m = Some (name_of m).
Proof.
  intros H.
  assert (E : m = 1 \/ m = 2 \/ m = 3 \/ m = 4 \/ m = 5 \/ m = 6 \/ m = 7 \/
              m = 8 \/ m = 9 \/ m = 10 \/ m = 11 \/ m = 12) by lia.
  repeat (destruct E as [->|E]; [reflexivity|]). now subst.
Qed.

Lemma name_of_injective m m' :
  1 <= m <= 12 -> 1 <= m' <= 12 -> name_of m = name_of m' -> m = m'.
Proof.
  intros H H'.
  assert (E : m = 1 \/ m = 2 \/ m = 3 \/ m = 4 \/ m = 5 \/ m = 6 \/ m = 7 \/
              m = 8 \/ m = 9 \/ m = 10 \/ m = 11 \/ m = 12) by lia.
  assert (E' : m' = 1 \/ m' = 2 \/ m' = 3 \/ m' = 4 \/ m' = 5 \/ m' = 6 \/
               m' = 7 \/ m' = 8 \/ m' = 9 \/ m' = 10 \/ m' = 11 \/ m' = 12)
    by lia.
  repeat (destruct E as [->|E]);
    repeat (destruct E' as [->|E']); subst;
    (reflexivity || (intros Hn; vm_compute in Hn; discriminate Hn)).
Qed.

Lemma names_distinct (ms : list Z) :
  NoDup ms -> (forall m, In m ms -> 1 <= m <= 12) ->
  NoDup (map name_of ms).
Proof.
  induction 1 as [|m ms Hm Hnd IH]; intros Hr; [constructor|].
  cbn [map]. constructor.
  - intros Hin. apply in_map_iff in Hin. destruct Hin as [m' [E Hm']].
    apply name_of_injective in E.
    + now subst.
    + apply Hr. now right.
    + apply Hr. now left.
  - apply IH. intros m' Hm'. apply Hr. now right.
Qed.

(** X22: when every month of the year-filtered table is between 1 and 12,
    the month names are built without error, the options offered are the
    names of the available months in ascending order of month, and mapping
    any selection of offered names back gives exactly the months that were
    selected, in the order of the selection. *)
Theorem month_names_round_trip year_filtered selected :
  (forall r, In r (rows year_filtered) -> 1 <= month (Date r) <= 12) ->
  incl selected (available_months_int year_filtered) ->
  exists mm options names,
    month_map (available_months_int year_filtered) = Some mm /\
    month_options mm (available_months_int year_filtered) = Some options /\
    options = map name_of (available_months_int year_filtered) /\
    all_some (map month_name selected) = Some names /\
    incl names options /\
    selected_months_int (reverse_month_map mm) names = Some selected.
Proof.
  intros Hr Hsel.
  set (ms := available_months_int year_filtered) in *.
  assert (Hms : forall m, In m ms -> 1 <= m <= 12).
  { intros m Hm. apply sorted_unique_in, in_map_iff in Hm.
    destruct Hm as [r [<- Hin]]. now apply Hr. }
  assert (Hnd : NoDup ms) by apply sorted_unique_nodup.
  set (items := map (fun m => (m, name_of m)) ms).
  assert (Hkeys : map fst items = ms)
    by (unfold items; rewrite map_map; apply map_id).
  assert (Hmm : month_map ms = Some items).
  { unfold month_map.
    rewrite (all_some_map _ (fun m => (m, name_of m))).
    - cbn [option_map]. f_equal. apply dict_of_distinct.
      + intros x y. apply Z.eqb_eq.
      + now rewrite Hkeys.
    - intros m Hm. now rewrite month_name_some by now apply Hms. }
  assert (Hrev : reverse_month_map items
                 = map (fun m => (name_of m, m)) ms).
  { unfold reverse_month_map, items. rewrite map_map. cbn [fst snd].
    apply dict_of_distinct; [intros x y; apply String.eqb_eq|].
    rewrite map_map. cbn [fst]. now apply names_distinct. }
  exists items, (map name_of ms), (map name_of selected).
  split; [exact Hmm|]. split; [|split; [reflexivity|split; [|split]]].
  - unfold month_options. apply all_some_map. intros m Hm.
    apply dict_get_in.
    + intros x y. apply Z.eqb_eq.
    + now rewrite Hkeys.
    + unfold items. apply in_map_iff. now exists m.
  - apply all_some_map. intros m Hm.
    apply month_name_some, Hms, Hsel, Hm.
  - intros n Hn. apply in_map_iff in Hn. destruct Hn as [m [<- Hm]].
    apply in_map. now apply Hsel.
  - unfold selected_months_int. rewrite Hrev, map_map.
    rewrite (all_some_map _ (fun m => m)); [now rewrite map_id|].
    intros m Hm. apply dict_get_in.
    + intros x y. apply String.eqb_eq.
    + rewrite map_map. cbn [fst]. now apply names_distinct.
    + apply in_map_iff. exists m. split; [reflexivity|now apply Hsel].
Qed.

Lemma month_names_round_trip_witness :
  exists mm options names,
    month_map (available_months_int both_years_df) = Some mm /\
    month_options mm (available_months_int both_years_df) = Some options /\
    options = map name_of (available_months_int both_years_df) /\
    all_some (map month_name [12; 1]) = Some names /\
    incl names options /\
    selected_months_int (reverse_month_map mm) names = Some [12; 1].
Proof.
  apply (month_names_round_trip both_years_df [12; 1]).
  - intros r [<-|[<-|[<-|[]]]]; cbn; lia.
  - intros m [<-|[<-|[]]]; vm_compute; tauto.
Defined.

Example month_options_sample :
  option_map (fun mm => month_options mm (available_months_int both_years_df))
             (month_map (available_months_int both_years_df))
  = Some (Some ["January"; "February"; "December"]%string).
Proof. reflexivity. Qed.

(** * Further properties: the table view *)

Lemma display_df_privacy df :
  display_df df true
  = map (fun r => mkDisplayRow (Date r) (Transaction_Type r)
                    (Str "****") (Str "****") (Str "****") (Str "****"))
        (rows df).
Proof.
  unfold display_df. rewrite !map_map. reflexivity.
Qed.

(** X23: in privacy mode the table view shows nothing of the remarks,
    amounts, balances and bank names: two filtered sets with the same
    timestamps and the same transaction types, row by row, give the same
    view.  The timestamp and the transaction type of every row are shown
    as they are. *)
Theorem privacy_mode_hides_details df df' :
  map Date (rows df) = map Date (rows df') ->
  map Transaction_Type (rows df) = map Transaction_Type (rows df') ->
  display_df df true = display_df df' true /\
  map d_Date (display_df df true) = map Date (rows df) /\
  map d_Transaction_Type (display_df df true)
  = map Transaction_Type (rows df).
Proof.
  intros Hd Ht. rewrite !display_df_privacy. split; [|split].
  - revert Hd Ht. generalize (rows df'). induction (rows df) as [|r l IH];
      intros [|r' l'] Hd Ht; try discriminate; [reflexivity|].
    cbn [map] in *. injection Hd as Hd1 Hd2. injection Ht as Ht1 Ht2.
    rewrite Hd1, Ht1. f_equal. now apply IH.
  - rewrite map_map. reflexivity.
  - rewrite map_map. reflexivity.
Qed.

Lemma privacy_mode_hides_details_witness :
  display_df tied_df true = display_df same_times_df true /\
  map d_Date (display_df tied_df true) = map Date (rows tied_df) /\
  map d_Transaction_Type (display_df tied_df true)
  = map Transaction_Type (rows tied_df).
Proof.
  apply (privacy_mode_hides_details tied_df same_times_df);
    reflexivity.
Defined.

Example display_df_open :
  display_df example_df false
  = [ mkDisplayRow (mkTs 2024 1 10 9 0 0) (Some "Deposit"%string)
        (Str "salary") (Num 100000) (Num 100000) (Str "Toss");
      mkDisplayRow (mkTs 2024 2 5 18 30 0) (Some "Withdrawal"%string)
        (Str "rent") (Num (-40000)) (Num 60000) (Str "Toss") ].
Proof. reflexivity. Qed.
